(** * Daily-diet API: the meal ledger and the user registry

    A shallow embedding of the two route groups of the repository,
    [usersRoutes] and [mealsRoutes] (src/routes/meals.ts), with
    the properties the specification states about them.

    The relational store is a pair of tables, each a list of rows in
    insertion order.  A handler is a computation in a small monad that
    threads the store, the log of the queries issued so far, the cookies
    put on the reply and the position in the stream of random UUIDs, and
    that may throw. *)

From Stdlib Require Import List String Ascii ZArith Arith Bool Lia.
From Stdlib Require Import Permutation Sorted.
Import ListNotations.

Local Open Scope string_scope.
Local Open Scope list_scope.

#[local] Set Warnings "-register-all".

(** ** Rows of the two tables *)

Record User := mkUser {
  u_id : string;
  u_name : string;
  email : string;
  session_id : string
}.

Record Meal := mkMeal {
  id : string;
  name : string;
  description : string;
  is_on_diet : bool;
  date : Z;              (* integer epoch milliseconds *)
  user_id : string
}.

(** ** Request bodies

    A body is whatever JSON the client sent.  A number keeps the decimal
    literal it was written with (mantissa and power of ten); no handler
    computes with it. *)

Inductive json :=
| JNull
| JBool (b : bool)
| JNum (mantissa exponent : Z)
| JStr (s : string)
| JArr (items : list json)
| JObj (members : list (string * json)).

(** Property access on a parsed object: of two members with one key the
    later one is kept, as [JSON.parse] does; [None] is [undefined]. *)
Fixpoint get_member (k : string) (ms : list (string * json)) : option json :=
  match ms with
  | [] => None
  | (k', v) :: rest =>
      match get_member k rest with
      | Some v' => Some v'
      | None => if String.eqb k k' then Some v else None
      end
  end.

(** ** Replies *)

Record Metrics := mkMetrics {
  totalMeals : nat;
  totalMealsOnDiet : nat;
  totalMealsOffDiet : nat;
  bestOnDietSequence : nat
}.

Inductive Payload :=
| Empty                                (* send() *)
| ErrorBody (error : string)           (* { error } *)
| MessageBody (message : string)       (* { message } *)
| MealsBody (meals : list Meal)        (* Meal[] *)
| UsersBody (users : list User)        (* { users } *)
| MetricsBody (metrics : Metrics).     (* { metrics } *)

Record Reply := mkReply {
  status : nat;
  payload : Payload
}.

Record Cookie := mkCookie {
  cookie_name : string;
  cookie_value : string;
  path : string;
  maxAge : Z               (* seconds *)
}.

(** ** Requests

    [req_user_id] is [request.user?.id] as the [checkSessionIdExists]
    preHandler leaves it; that middleware is outside the two source files
    and the meal handlers run only once it has resolved the caller. *)

Record Request := mkRequest {
  cookies_sessionId : option string;   (* request.cookies.sessionId *)
  req_user_id : string;                (* request.user?.id *)
  params_id : string;                  (* request.params.id *)
  body : option json                   (* request.body *)
}.

(** ** The handler monad *)

Inductive Table := t_users | t_meals.
Inductive Verb := v_select | v_first | v_count | v_insert | v_update | v_delete.
Definition Query : Type := Table * Verb.

Inductive Exn :=
| ZodError      (* schema.parse threw *)
| KnexError.    (* the query builder rejected the query *)

Record State := mkState {
  db_users : list User;
  db_meals : list Meal;
  queries : list Query;      (* queries issued while handling the request *)
  cookies : list Cookie;     (* reply.cookie calls on the current reply *)
  entropy : nat              (* how many UUIDs have been drawn *)
}.

Definition M (A : Type) : Type := State -> (Exn + A) * State.

Definition ret {A} (a : A) : M A := fun s => (inr a, s).

Definition bind {A B} (c : M A) (k : A -> M B) : M B :=
  fun s =>
    match c s with
    | (inl e, s') => (inl e, s')
    | (inr a, s') => k a s'
    end.

Definition throw {A} (e : Exn) : M A := fun s => (inl e, s).

Notation "x <- c ;; k" := (bind c (fun x => k))
  (at level 61, c at next level, right associativity).
Notation "c ;;; k" := (bind c (fun _ => k))
  (at level 61, right associativity).

Definition issue (q : Query) : M unit :=
  fun s => (inr tt,
            mkState (db_users s) (db_meals s) (queries s ++ [q])
                    (cookies s) (entropy s)).

Definition read_users : M (list User) := fun s => (inr (db_users s), s).
Definition read_meals : M (list Meal) := fun s => (inr (db_meals s), s).

Definition write_users (us : list User) : M unit :=
  fun s => (inr tt,
            mkState us (db_meals s) (queries s) (cookies s) (entropy s)).

Definition write_meals (ms : list Meal) : M unit :=
  fun s => (inr tt,
            mkState (db_users s) ms (queries s) (cookies s) (entropy s)).

(** [reply.cookie(name, value, { path, maxAge })] *)
Definition reply_cookie (c : Cookie) : M unit :=
  fun s => (inr tt,
            mkState (db_users s) (db_meals s) (queries s)
                    (cookies s ++ [c]) (entropy s)).

(** ** The query builder, table [meals] *)

Definition by_id (i : string) (m : Meal) : bool := String.eqb (id m) i.

Definition by_user (u : string) (m : Meal) : bool := String.eqb (user_id m) u.

Definition by_user_and_id (u i : string) (m : Meal) : bool :=
  String.eqb (user_id m) u && String.eqb (id m) i.

Definition by_user_and_diet (u : string) (d : bool) (m : Meal) : bool :=
  String.eqb (user_id m) u && Bool.eqb (is_on_diet m) d.

(** [knex('meals').where(p).select()] *)
Definition meals_select (p : Meal -> bool) : M (list Meal) :=
  issue (t_meals, v_select) ;;;
  ms <- read_meals ;;
  ret (filter p ms).

(** [knex('meals').where(p).first()] *)
Definition meals_first (p : Meal -> bool) : M (option Meal) :=
  issue (t_meals, v_first) ;;;
  ms <- read_meals ;;
  ret (find p ms).

(** [knex('meals').where(p).count('id', { as: 'total' }).first()], read at
    [?.total]; [id] is never null. *)
Definition meals_count (p : Meal -> bool) : M nat :=
  issue (t_meals, v_count) ;;;
  ms <- read_meals ;;
  ret (List.length (filter p ms)).

(** [knex('meals').insert(row)] *)
Definition meals_insert (row : Meal) : M unit :=
  issue (t_meals, v_insert) ;;;
  ms <- read_meals ;;
  write_meals (ms ++ [row]).

(** [knex('meals').where(p).update({ name, description, is_on_diet, date })] *)
Definition set_fields (n d : string) (b : bool) (t : Z) (m : Meal) : Meal :=
  mkMeal (id m) n d b t (user_id m).

Definition meals_update (p : Meal -> bool) (n d : string) (b : bool) (t : Z)
  : M unit :=
  issue (t_meals, v_update) ;;;
  ms <- read_meals ;;
  write_meals (map (fun m => if p m then set_fields n d b t m else m) ms).

(** [knex('meals').where(p).delete()] *)
Definition meals_delete (p : Meal -> bool) : M unit :=
  issue (t_meals, v_delete) ;;;
  ms <- read_meals ;;
  write_meals (filter (fun m => negb (p m)) ms).

(** ** The query builder, table [users] *)

Definition by_email (e : string) (u : User) : bool := String.eqb (email u) e.

Definition by_session (s : string) (u : User) : bool :=
  String.eqb (session_id u) s.

(** [knex('users').where('session_id', sessionId).select()]: the builder
    refuses an [undefined] binding. *)
Definition users_select_by_session (sid : option string) : M (list User) :=
  match sid with
  | None => throw KnexError
  | Some s =>
      issue (t_users, v_select) ;;;
      us <- read_users ;;
      ret (filter (by_session s) us)
  end.

(** [knex('users').where({ email }).first()] *)
Definition users_first (p : User -> bool) : M (option User) :=
  issue (t_users, v_first) ;;;
  us <- read_users ;;
  ret (find p us).

(** [knex('users').insert(row)] *)
Definition users_insert (row : User) : M unit :=
  issue (t_users, v_insert) ;;;
  us <- read_users ;;
  write_users (us ++ [row]).

(** ** Request validation and the handlers

    Three things the handlers call are library or runtime code: the UUID
    pattern of [z.string().uuid()], the conversion [new Date(v)] behind
    [z.coerce.date()], and [randomUUID()].  The store's [ORDER BY date DESC]
    leaves the order of rows with equal dates open.  All four are taken as
    given. *)

Module Acc.
(** The accumulator object of the [reduce] in the metrics handler. *)
Record t := mk {
  bestOnDietSequence : nat;
  currentSequence : nat
}.
End Acc.

Inductive Route :=
| GET_users
| POST_users
| POST_meals
| GET_meals
| GET_meals_metrics
| GET_meals_id
| PUT_meals_id
| DELETE_meals_id.

Record UserBody := mkUserBody {
  ub_name : string;
  ub_email : string
}.

Record MealBody := mkMealBody {
  mb_name : string;
  mb_description : string;
  isOnDiet : bool;
  mb_date : Z            (* date.getTime() of the coerced Date *)
}.

(** [!sessionId] on [string | undefined] *)
Definition not_ (sessionId : option string) : bool :=
  match sessionId with
  | None => true
  | Some s => String.eqb s ""
  end.

Definition z_string (v : option json) : option string :=
  match v with
  | Some (JStr s) => Some s
  | _ => None
  end.

Definition z_boolean (v : option json) : option bool :=
  match v with
  | Some (JBool b) => Some b
  | _ => None
  end.

(** [schema.parse(input)] *)
Definition parse {I A} (schema : I -> option A) (input : I) : M A :=
  match schema input with
  | Some a => ret a
  | None => throw ZodError
  end.

Section Routes.

(** The pattern behind [z.string().uuid()]. *)
Variable is_uuid : string -> bool.

(** [new Date(v).getTime()] when [new Date(v)] is a valid date. *)
Variable coerce_date : json -> option Z.

(** The values [randomUUID()] returns, in the order of the calls. *)
Variable uuid_stream : nat -> string.

(** The rows as the store returns them for [orderBy('date', 'desc')]. *)
Variable orderBy_date_desc : list Meal -> list Meal.

Definition randomUUID : M string :=
  fun s => (inr (uuid_stream (entropy s)),
            mkState (db_users s) (db_meals s) (queries s) (cookies s)
                    (S (entropy s))).

(** [z.coerce.date()]: [new Date(undefined)] is not a valid date. *)
Definition z_coerce_date (v : option json) : option Z :=
  match v with
  | Some j => coerce_date j
  | None => None
  end.

(** [z.object({ name: z.string(), email: z.string() })] *)
Definition createUserBodySchema (input : option json) : option UserBody :=
  match input with
  | Some (JObj ms) =>
      match z_string (get_member "name" ms),
            z_string (get_member "email" ms) with
      | Some n, Some e => Some (mkUserBody n e)
      | _, _ => None
      end
  | _ => None
  end.

(** [z.object({ name: z.string(), description: z.string(),
                isOnDiet: z.boolean(), date: z.coerce.date() })] *)
Definition createMealBodySchema (input : option json) : option MealBody :=
  match input with
  | Some (JObj ms) =>
      match z_string (get_member "name" ms),
            z_string (get_member "description" ms),
            z_boolean (get_member "isOnDiet" ms),
            z_coerce_date (get_member "date" ms) with
      | Some n, Some d, Some b, Some t => Some (mkMealBody n d b t)
      | _, _, _, _ => None
      end
  | _ => None
  end.

Definition putMealBodySchema := createMealBodySchema.

(** [z.object({ id: z.string().uuid() })] on [request.params] *)
Definition getMealParamsSchema (i : string) : option string :=
  if is_uuid i then Some i else None.

Definition putMealParamsSchema := getMealParamsSchema.
Definition deleteMealParamsSchema := getMealParamsSchema.

(** *** usersRoutes *)

Definition users_get (request : Request) : M Reply :=
  let sessionId := cookies_sessionId request in
  users <- users_select_by_session sessionId ;;
  ret (mkReply 200 (UsersBody users)).

(** The body of [if (!sessionId) { ... }]. *)
Definition new_session : M string :=
  fresh <- randomUUID ;;
  reply_cookie (mkCookie "sessionId" fresh "/" (60 * 60 * 24 * 7)) ;;;
  ret fresh.

Definition users_post (request : Request) : M Reply :=
  sessionId <-
    (match cookies_sessionId request with
     | Some s => if not_ (Some s) then new_session else ret s
     | None => new_session
     end) ;;
  b <- parse createUserBodySchema (body request) ;;
  userByEmail <- users_first (by_email (ub_email b)) ;;
  match userByEmail with
  | Some _ => ret (mkReply 400 (MessageBody "User already exists!"))
  | None =>
      i <- randomUUID ;;
      users_insert (mkUser i (ub_name b) (ub_email b) sessionId) ;;;
      ret (mkReply 201 Empty)
  end.

(** *** mealsRoutes *)

Definition meals_post (request : Request) : M Reply :=
  b <- parse createMealBodySchema (body request) ;;
  i <- randomUUID ;;
  meals_insert (mkMeal i (mb_name b) (mb_description b) (isOnDiet b)
                       (mb_date b) (req_user_id request)) ;;;
  ret (mkReply 201 Empty).

Definition meals_get (request : Request) : M Reply :=
  meals <- meals_select (by_user (req_user_id request)) ;;
  ret (mkReply 200 (MealsBody meals)).

(** The callback of [meals.reduce]. *)
Definition reducer (acc : Acc.t) (meal : Meal) : Acc.t :=
  let acc :=
    if is_on_diet meal
    then Acc.mk (Acc.bestOnDietSequence acc) (Acc.currentSequence acc + 1)%nat
    else Acc.mk (Acc.bestOnDietSequence acc) 0 in
  if (Acc.bestOnDietSequence acc <? Acc.currentSequence acc)%nat
  then Acc.mk (Acc.currentSequence acc) (Acc.currentSequence acc)
  else acc.

(** [knex('meals').where(p).orderBy('date', 'desc')] *)
Definition meals_select_ordered (p : Meal -> bool) : M (list Meal) :=
  issue (t_meals, v_select) ;;;
  ms <- read_meals ;;
  ret (orderBy_date_desc (filter p ms)).

Definition meals_metrics (request : Request) : M Reply :=
  mealsOnDiet <- meals_count (by_user_and_diet (req_user_id request) true) ;;
  mealsOffDiet <- meals_count (by_user_and_diet (req_user_id request) false) ;;
  meals <- meals_select_ordered (by_user (req_user_id request)) ;;
  let acc := fold_left reducer meals (Acc.mk 0 0) in
  ret (mkReply 200
         (MetricsBody
            (mkMetrics (List.length meals) mealsOnDiet mealsOffDiet
                       (Acc.bestOnDietSequence acc)))).

Definition meals_get_id (request : Request) : M Reply :=
  i <- parse getMealParamsSchema (params_id request) ;;
  meal <- meals_first (by_id i) ;;
  match meal with
  | None => ret (mkReply 404 (ErrorBody "Meal not found"))
  | Some _ =>
      meals <- meals_select (by_user_and_id (req_user_id request) i) ;;
      ret (mkReply 200 (MealsBody meals))
  end.

Definition meals_put_id (request : Request) : M Reply :=
  i <- parse putMealParamsSchema (params_id request) ;;
  meal <- meals_first (by_id i) ;;
  match meal with
  | None => ret (mkReply 404 (ErrorBody "Meal not found"))
  | Some _ =>
      b <- parse putMealBodySchema (body request) ;;
      meals_update (by_user_and_id (req_user_id request) i)
                   (mb_name b) (mb_description b) (isOnDiet b) (mb_date b) ;;;
      ret (mkReply 200 Empty)
  end.

Definition meals_delete_id (request : Request) : M Reply :=
  i <- parse deleteMealParamsSchema (params_id request) ;;
  meal <- meals_first (by_id i) ;;
  match meal with
  | None => ret (mkReply 404 (ErrorBody "Meal not found"))
  | Some _ =>
      meals_delete (by_user_and_id (req_user_id request) i) ;;;
      ret (mkReply 200 Empty)
  end.

Definition handler (r : Route) : Request -> M Reply :=
  match r with
  | GET_users => users_get
  | POST_users => users_post
  | POST_meals => meals_post
  | GET_meals => meals_get
  | GET_meals_metrics => meals_metrics
  | GET_meals_id => meals_get_id
  | PUT_meals_id => meals_put_id
  | DELETE_meals_id => meals_delete_id
  end.

End Routes.

(** ** The streak as the specification words it

    One pass from left to right with two counters: the current streak grows
    by one on an on-diet meal and falls to zero on an off-diet meal, and
    the best streak is the largest current streak seen. *)

Definition streak_step (counters : nat * nat) (on_diet : bool) : nat * nat :=
  let (current, best) := counters in
  let current' := if on_diet then S current else 0 in
  (current', Nat.max best current').

Definition best_streak (flags : list bool) : nat :=
  snd (fold_left streak_step flags (0, 0)).

(** Rows in descending order of date. *)
Definition date_desc (a b : Meal) : Prop := (date b <= date a)%Z.

(** ** Instances of the library functions, for running the handlers *)

(** Eight, four, four, four and twelve hexadecimal digits between dashes. *)
Definition is_hex (c : ascii) : bool :=
  let n := nat_of_ascii c in
  ((48 <=? n) && (n <=? 57) || (97 <=? n) && (n <=? 102)
   || (65 <=? n) && (n <=? 70))%nat.

Fixpoint hex_run (n : nat) (s : string) : option string :=
  match n with
  | O => Some s
  | S n' =>
      match s with
      | String c rest => if is_hex c then hex_run n' rest else None
      | EmptyString => None
      end
  end.

Definition dash_then (n : nat) (s : option string) : option string :=
  match s with
  | Some (String "-" rest) => hex_run n rest
  | _ => None
  end.

Definition uuid_shape (s : string) : bool :=
  match dash_then 12 (dash_then 4 (dash_then 4 (dash_then 4 (hex_run 8 s)))) with
  | Some EmptyString => true
  | _ => false
  end.

(** [new Date(n)] of a whole number of milliseconds in the range of a
    Date is the date at [n]; this instance reads such numbers only. *)
Definition date_of_epoch_number (j : json) : option Z :=
  match j with
  | JNum n 0 =>
      if ((- 8640000000000000 <=? n) && (n <=? 8640000000000000))%Z
      then Some n else None
  | _ => None
  end.

Definition sample_uuids (n : nat) : string :=
  nth n [ "9b2f4c1e-7a3d-4e5f-8a6b-0c1d2e3f4a5b";
          "1c8e7d6f-5b4a-4c3d-9e2f-a1b0c9d8e7f6";
          "e4d3c2b1-a098-4f76-b543-21fedcba0987";
          "5a6b7c8d-9e0f-4a1b-8c2d-3e4f5a6b7c8d" ]
      "00000000-0000-4000-8000-000000000000".

(** Insertion sort, latest date first; rows of one date keep their order. *)
Fixpoint insert_desc (m : Meal) (l : list Meal) : list Meal :=
  match l with
  | [] => [m]
  | x :: rest =>
      if (date x <? date m)%Z then m :: x :: rest
      else x :: insert_desc m rest
  end.

Definition sort_date_desc (l : list Meal) : list Meal :=
  fold_right insert_desc [] l.

(** ** Sample data *)

Definition ana : string := "7d0e1f2a-3b4c-4d5e-8f60-718293a4b5c6".
Definition bia : string := "0f1e2d3c-4b5a-4697-8879-6a5b4c3d2e1f".

Definition salad : Meal :=
  mkMeal "3f2b8c1e-5d4a-4b6f-9a7e-1c2d3e4f5a6b" "salad" "green" true 1700000000000 ana.

Definition burger : Meal :=
  mkMeal "a1b2c3d4-e5f6-4789-8abc-def012345678" "burger" "double" false 1700000360000 bia.

Definition week (u : string) : list Meal :=
  [ mkMeal "m4" "d" "" true 4 u; mkMeal "m7" "g" "" true 7 u;
    mkMeal "m1" "a" "" false 1 u; mkMeal "m6" "f" "" true 6 u;
    mkMeal "m5" "e" "" false 5 u; mkMeal "m3" "c" "" true 3 u;
    mkMeal "m2" "b" "" true 2 u ].

Definition rita : User :=
  mkUser "c0ffee00-1234-4abc-9def-0123456789ab" "Rita" "rita@example.com"
         "5e55105e-0000-4000-8000-00000000abcd".

Definition store0 : State := mkState [rita] [salad; burger] [] [] 0.

Definition meal_json (n d : string) (b : bool) (t : Z) : json :=
  JObj [("name", JStr n); ("description", JStr d);
        ("isOnDiet", JBool b); ("date", JNum t 0)].

Definition user_json (n e : string) : json :=
  JObj [("name", JStr n); ("email", JStr e)].

Definition no_token : Request :=
  mkRequest None "" "" (Some (user_json "Rita B" "rita@example.com")).

Definition nameless : Request :=
  mkRequest (Some "5e55105e-0000-4000-8000-00000000abcd") "" ""
            (Some (JObj [("email", JStr "rita@example.com")])).

(** Ana asks to rewrite Bia's burger, without a body. *)
Definition foreign_put_no_body : Request :=
  mkRequest None ana (id burger) None.

(** The same, with a well-formed body. *)
Definition foreign_put : Request :=
  mkRequest None ana (id burger)
            (Some (meal_json "stolen" "bite" true 1700000999000)).

(** The queries that only read. *)
Definition reads (q : Query) : bool :=
  match snd q with
  | v_select | v_first | v_count => true
  | v_insert | v_update | v_delete => false
  end.

(** The session id a Register works with: the token of the request, or,
    when [!sessionId] holds, the UUID it draws first. *)
Definition session_of (uuid_stream : nat -> string) (request : Request)
    (st : State) : string :=
  match cookies_sessionId request with
  | Some s => if not_ (Some s) then uuid_stream (entropy st) else s
  | None => uuid_stream (entropy st)
  end.

(** Ana asks to delete her salad. *)
Definition delete_salad : Request := mkRequest None ana (id salad) None.

(** Ana rewrites her salad. *)
Definition put_salad : Request :=
  mkRequest None ana (id salad)
            (Some (meal_json "caesar" "no croutons" false 1700000100000)).

(** Ana adds a soup. *)
Definition post_soup : Request :=
  mkRequest None ana "" (Some (meal_json "soup" "hot" true 1700000720000)).

(** Someone new registers without a token. *)
Definition register_ana : Request :=
  mkRequest None "" "" (Some (user_json "Ana" "ana@example.com")).

(** A computation that leaves the cookies of the reply alone. *)
Definition keeps_cookies {A} (c : M A) : Prop :=
  forall s, cookies (snd (c s)) = cookies s.

(** ** Facts about the instances *)

Lemma insert_desc_perm (m : Meal) (l : list Meal) :
  Permutation (insert_desc m l) (m :: l).
Proof.
  induction l as [|x rest IH]; simpl.
  - apply Permutation_refl.
  - destruct (date x <? date m)%Z.
    + apply Permutation_refl.
    + eapply perm_trans; [apply perm_skip, IH | apply perm_swap].
Qed.

Lemma sort_date_desc_perm (l : list Meal) :
  Permutation (sort_date_desc l) l.
Proof.
  induction l as [|m rest IH]; simpl.
  - apply perm_nil.
  - eapply perm_trans; [apply insert_desc_perm | apply perm_skip, IH].
Qed.

Lemma insert_desc_sorted (m : Meal) (l : list Meal) :
  StronglySorted date_desc l -> StronglySorted date_desc (insert_desc m l).
Proof.
  induction l as [|x rest IH]; simpl; intros Hs.
  - constructor; [constructor | constructor].
  - inversion Hs as [|? ? Hrest Hall]; subst.
    destruct (date x <? date m)%Z eqn:E.
    + apply Z.ltb_lt in E.
      constructor; [exact Hs|].
      constructor; [unfold date_desc; lia|].
      rewrite Forall_forall in *. intros y Hy.
      specialize (Hall y Hy). unfold date_desc in *. lia.
    + apply Z.ltb_ge in E.
      constructor; [apply IH; exact Hrest|].
      rewrite Forall_forall in *. intros y Hy.
      apply (Permutation_in _ (insert_desc_perm m rest)) in Hy.
      destruct Hy as [<-|Hy]; [exact E | apply Hall; exact Hy].
Qed.

Lemma sort_date_desc_sorted (l : list Meal) :
  StronglySorted date_desc (sort_date_desc l).
Proof.
  induction l as [|m rest IH]; simpl.
  - constructor.
  - apply insert_desc_sorted, IH.
Qed.

(** ** The streak fold *)

Lemma reducer_step (acc : Acc.t) (meal : Meal) :
  (Acc.currentSequence (reducer acc meal),
   Acc.bestOnDietSequence (reducer acc meal))
  = streak_step (Acc.currentSequence acc, Acc.bestOnDietSequence acc)
                (is_on_diet meal).
Proof.
  unfold reducer, streak_step.
  destruct (is_on_diet meal); simpl.
  - destruct (Nat.ltb_spec (Acc.bestOnDietSequence acc)
                           (Acc.currentSequence acc + 1)); simpl;
      f_equal; lia.
  - f_equal. lia.
Qed.

Lemma reduce_is_fold (meals : list Meal) (acc : Acc.t) :
  (Acc.currentSequence (fold_left reducer meals acc),
   Acc.bestOnDietSequence (fold_left reducer meals acc))
  = fold_left streak_step (map is_on_diet meals)
              (Acc.currentSequence acc, Acc.bestOnDietSequence acc).
Proof.
  revert acc. induction meals as [|meal rest IH]; intros acc; simpl.
  - reflexivity.
  - rewrite IH, reducer_step. reflexivity.
Qed.

Lemma reduce_best_streak (meals : list Meal) :
  Acc.bestOnDietSequence (fold_left reducer meals (Acc.mk 0 0))
  = best_streak (map is_on_diet meals).
Proof.
  unfold best_streak.
  pose proof (reduce_is_fold meals (Acc.mk 0 0)) as H. simpl in H.
  rewrite <- H. reflexivity.
Qed.

(** Both counters stay below the number of on-diet meals read so far. *)
Lemma streak_bounded (flags : list bool) (current best seen : nat) :
  current <= seen -> best <= seen ->
  let r := fold_left streak_step flags (current, best) in
  fst r <= seen + List.length (filter (fun b => b) flags) /\
  snd r <= seen + List.length (filter (fun b => b) flags).
Proof.
  revert current best seen.
  induction flags as [|b rest IH]; intros current best seen Hc Hb; simpl.
  - lia.
  - destruct b; simpl.
    + specialize (IH (S current) (Nat.max best (S current)) (S seen)).
      simpl in IH. lia.
    + specialize (IH 0 (Nat.max best 0) seen). simpl in IH. lia.
Qed.

Lemma best_streak_le_on_diet (flags : list bool) :
  best_streak flags <= List.length (filter (fun b => b) flags).
Proof.
  unfold best_streak.
  pose proof (streak_bounded flags 0 0 0 (le_n 0) (le_n 0)) as H.
  simpl in H. lia.
Qed.

Lemma filter_map_flags (meals : list Meal) :
  List.length (filter (fun b => b) (map is_on_diet meals))
  = List.length (filter is_on_diet meals).
Proof.
  induction meals as [|m rest IH]; simpl; [reflexivity|].
  destruct (is_on_diet m); simpl; congruence.
Qed.

Lemma filter_length_perm {A} (p : A -> bool) (l l' : list A) :
  Permutation l l' -> List.length (filter p l) = List.length (filter p l').
Proof.
  induction 1; simpl; try congruence.
  - destruct (p x); simpl; congruence.
  - destruct (p x), (p y); simpl; congruence.
Qed.

Lemma filter_user_diet (u : string) (ms : list Meal) :
  filter is_on_diet (filter (by_user u) ms)
  = filter (by_user_and_diet u true) ms.
Proof.
  induction ms as [|m rest IH]; simpl; [reflexivity|].
  unfold by_user, by_user_and_diet in *.
  destruct (String.eqb (user_id m) u); simpl.
  - destruct (is_on_diet m); simpl; congruence.
  - exact IH.
Qed.

Lemma filter_length_le {A} (p : A -> bool) (l : list A) :
  List.length (filter p l) <= List.length l.
Proof.
  induction l as [|x rest IH]; simpl; [lia|].
  destruct (p x); simpl; lia.
Qed.

Lemma filter_user_flag (u : string) (d : bool) (ms : list Meal) :
  filter (fun m => Bool.eqb (is_on_diet m) d) (filter (by_user u) ms)
  = filter (by_user_and_diet u d) ms.
Proof.
  induction ms as [|m rest IH]; simpl; [reflexivity|].
  unfold by_user, by_user_and_diet in *.
  destruct (String.eqb (user_id m) u); simpl.
  - destruct (Bool.eqb (is_on_diet m) d); simpl; congruence.
  - exact IH.
Qed.

(** ** The metrics handler *)

Section MetricsFacts.

Variable orderBy_date_desc : list Meal -> list Meal.

Hypothesis orderBy_perm :
  forall l, Permutation (orderBy_date_desc l) l.

Hypothesis orderBy_sorted :
  forall l, StronglySorted date_desc (orderBy_date_desc l).

(** What one call of the handler does, in one equation. *)
Lemma meals_metrics_run (request : Request) (st : State) :
  meals_metrics orderBy_date_desc request st
  = let u := req_user_id request in
    let meals := orderBy_date_desc (filter (by_user u) (db_meals st)) in
    (inr (mkReply 200
            (MetricsBody
               (mkMetrics
                  (List.length meals)
                  (List.length (filter (by_user_and_diet u true) (db_meals st)))
                  (List.length (filter (by_user_and_diet u false) (db_meals st)))
                  (Acc.bestOnDietSequence
                     (fold_left reducer meals (Acc.mk 0 0)))))),
     mkState (db_users st) (db_meals st)
             (((queries st ++ [(t_meals, v_count)]) ++ [(t_meals, v_count)])
              ++ [(t_meals, v_select)])
             (cookies st) (entropy st)).
Proof. reflexivity. Qed.

(** C1: the [bestOnDietSequence] of the metrics reply is the
    specification's fold with two counters (current streak up by one on
    an on-diet meal, back to zero on an off-diet meal, largest streak
    returned) over the caller's meals in descending order of date; when
    the diet flags in that order are
    [true, true, false, true, true, true, false] it is 3. *)
Theorem metrics_best_sequence_is_streak_fold
    (request : Request) (st : State) :
  let owned := filter (by_user (req_user_id request)) (db_meals st) in
  let meals := orderBy_date_desc owned in
  Permutation meals owned /\
  StronglySorted date_desc meals /\
  exists m : Metrics,
    fst (meals_metrics orderBy_date_desc request st)
    = inr (mkReply 200 (MetricsBody m)) /\
    bestOnDietSequence m = best_streak (map is_on_diet meals) /\
    (map is_on_diet meals = [true; true; false; true; true; true; false] ->
     bestOnDietSequence m = 3).
Proof.
  intros owned meals.
  split; [apply orderBy_perm|].
  split; [apply orderBy_sorted|].
  rewrite meals_metrics_run. cbv zeta. fold owned. fold meals.
  eexists. split; [reflexivity|]. simpl.
  split.
  - apply reduce_best_streak.
  - intros Hflags. rewrite reduce_best_streak, Hflags. reflexivity.
Qed.

(** C8: for a caller who owns no meal the four figures are all zero. *)
Theorem metrics_of_no_meals (request : Request) (st : State) :
  filter (by_user (req_user_id request)) (db_meals st) = [] ->
  fst (meals_metrics orderBy_date_desc request st)
  = inr (mkReply 200 (MetricsBody (mkMetrics 0 0 0 0))).
Proof.
  intros Hnone.
  rewrite meals_metrics_run. cbv zeta.
  rewrite <- !filter_user_flag, Hnone. simpl.
  rewrite (Permutation_nil (Permutation_sym (orderBy_perm []))).
  reflexivity.
Qed.

(** C9: in every metrics reply
    [bestOnDietSequence <= totalMealsOnDiet <= totalMeals]. *)
Theorem metrics_best_le_on_diet_le_total (request : Request) (st : State) :
  exists m : Metrics,
    fst (meals_metrics orderBy_date_desc request st)
    = inr (mkReply 200 (MetricsBody m)) /\
    bestOnDietSequence m <= totalMealsOnDiet m /\
    totalMealsOnDiet m <= totalMeals m.
Proof.
  rewrite meals_metrics_run. cbv zeta.
  eexists. split; [reflexivity|]. simpl.
  set (u := req_user_id request).
  set (owned := filter (by_user u) (db_meals st)).
  assert (Hon : List.length (filter (by_user_and_diet u true) (db_meals st))
                = List.length (filter is_on_diet (orderBy_date_desc owned))).
  { rewrite (filter_length_perm is_on_diet _ _ (orderBy_perm owned)).
    unfold owned. rewrite filter_user_diet. reflexivity. }
  rewrite Hon. split.
  - rewrite reduce_best_streak, <- filter_map_flags.
    apply best_streak_le_on_diet.
  - apply filter_length_le.
Qed.

End MetricsFacts.

Lemma metrics_best_sequence_is_streak_fold_witness :
  exists m : Metrics,
    fst (meals_metrics sort_date_desc (mkRequest None ana "" None)
           (mkState [rita] (burger :: week ana) [] [] 0))
    = inr (mkReply 200 (MetricsBody m)) /\
    bestOnDietSequence m = 3.
Proof.
  destruct (metrics_best_sequence_is_streak_fold
              sort_date_desc sort_date_desc_perm sort_date_desc_sorted
              (mkRequest None ana "" None)
              (mkState [rita] (burger :: week ana) [] [] 0))
    as (_ & _ & m & Hreply & _ & Hthree).
  exists m. split; [exact Hreply | apply Hthree; reflexivity].
Defined.

Lemma metrics_of_no_meals_witness :
  fst (meals_metrics sort_date_desc (mkRequest None "nobody" "" None) store0)
  = inr (mkReply 200 (MetricsBody (mkMetrics 0 0 0 0))).
Proof.
  apply (metrics_of_no_meals sort_date_desc sort_date_desc_perm).
  reflexivity.
Defined.

Lemma metrics_best_le_on_diet_le_total_witness :
  exists m : Metrics,
    fst (meals_metrics sort_date_desc (mkRequest None ana "" None)
           (mkState [rita] (burger :: week ana) [] [] 0))
    = inr (mkReply 200 (MetricsBody m)) /\
    bestOnDietSequence m <= totalMealsOnDiet m /\
    totalMealsOnDiet m <= totalMeals m.
Proof.
  exact (metrics_best_le_on_diet_le_total
           sort_date_desc sort_date_desc_perm
           (mkRequest None ana "" None)
           (mkState [rita] (burger :: week ana) [] [] 0)).
Defined.

Example metrics_of_a_week :
  fst (meals_metrics sort_date_desc (mkRequest None ana "" None)
         (mkState [rita] (burger :: week ana) [] [] 0))
  = inr (mkReply 200 (MetricsBody (mkMetrics 7 5 2 3))).
Proof. reflexivity. Qed.

(** ** Looking a meal up by its id *)

Lemma find_by_id_none (i : string) (ms : list Meal) :
  find (by_id i) ms = None <-> (forall m, In m ms -> id m <> i).
Proof.
  split.
  - intros Hnone m Hin Heq.
    pose proof (find_none _ _ Hnone m Hin) as Hf.
    unfold by_id in Hf. rewrite Heq, String.eqb_refl in Hf. discriminate.
  - intros Hall. destruct (find (by_id i) ms) as [m|] eqn:E; [|reflexivity].
    apply find_some in E. destruct E as [Hin Hid].
    unfold by_id in Hid. apply String.eqb_eq in Hid.
    exfalso. exact (Hall m Hin Hid).
Qed.

Lemma find_by_id_some (i : string) (ms : list Meal) :
  (exists m, In m ms /\ id m = i) -> exists m, find (by_id i) ms = Some m.
Proof.
  intros (m & Hin & Hid).
  destruct (find (by_id i) ms) as [m'|] eqn:E; [exists m'; reflexivity|].
  exfalso. apply (proj1 (find_by_id_none i ms) E m Hin Hid).
Qed.

Lemma update_of_no_row (p : Meal -> bool) (f : Meal -> Meal) (ms : list Meal) :
  (forall m, In m ms -> p m = false) ->
  map (fun m => if p m then f m else m) ms = ms.
Proof.
  induction ms as [|m rest IH]; simpl; intros Hnone; [reflexivity|].
  rewrite (Hnone m (or_introl eq_refl)), IH; [reflexivity|].
  intros m' Hin. apply Hnone. right. exact Hin.
Qed.

Lemma by_user_and_id_foreign (u i : string) (ms : list Meal) :
  (forall m, In m ms -> id m = i -> user_id m <> u) ->
  forall m, In m ms -> by_user_and_id u i m = false.
Proof.
  intros Hforeign m Hin. unfold by_user_and_id.
  destruct (String.eqb_spec (user_id m) u) as [Hu|]; [|reflexivity].
  destruct (String.eqb_spec (id m) i) as [Hi|]; [|reflexivity].
  exfalso. exact (Hforeign m Hin Hi Hu).
Qed.

(** ** The meal handlers *)

Section MealFacts.

Variable is_uuid : string -> bool.
Variable coerce_date : json -> option Z.
Variable uuid_stream : nat -> string.
Variable orderBy_date_desc : list Meal -> list Meal.

(** C2: with a well-formed id, Get by id answers 404 with an error body
    exactly when no row of the table, of any user, carries the id; when
    some row does, it answers 200 with the rows that carry both the id
    and the caller's user id, a list that may be empty. *)
Theorem get_by_id_not_found_iff_absent (request : Request) (st : State) :
  is_uuid (params_id request) = true ->
  let i := params_id request in
  let reply := fst (meals_get_id is_uuid request st) in
  (reply = inr (mkReply 404 (ErrorBody "Meal not found"))
   <-> (forall m, In m (db_meals st) -> id m <> i)) /\
  ((exists m, In m (db_meals st) /\ id m = i) ->
   reply = inr (mkReply 200
                  (MealsBody
                     (filter (by_user_and_id (req_user_id request) i)
                             (db_meals st))))).
Proof.
  intros Huuid i reply. subst reply i.
  unfold meals_get_id, parse, getMealParamsSchema. rewrite Huuid.
  cbv [bind ret meals_first meals_select issue read_meals].
  destruct st as [us ms qs cs n]; simpl.
  destruct (find (by_id (params_id request)) ms) as [m|] eqn:E; simpl.
  - split.
    + split; [discriminate|].
      intros Hall. apply find_by_id_none in Hall. congruence.
    + intros _. reflexivity.
  - split.
    + split; [intros _; apply find_by_id_none; exact E | reflexivity].
    + intros Hex. apply find_by_id_some in Hex.
      destruct Hex as [m Hm]. congruence.
Qed.

(** C6: with an id that is not a UUID, Get by id, Update and Delete
    throw the validation error at once: no query has been issued and
    the store, like the rest of the state, is as it was. *)
Theorem malformed_id_fails_before_any_query
    (r : Route) (request : Request) (st : State) :
  r = GET_meals_id \/ r = PUT_meals_id \/ r = DELETE_meals_id ->
  is_uuid (params_id request) = false ->
  handler is_uuid coerce_date uuid_stream orderBy_date_desc r request st
  = (inl ZodError, st).
Proof.
  intros [-> | [-> | ->]] Hbad; simpl;
    unfold meals_get_id, meals_put_id, meals_delete_id, parse,
      getMealParamsSchema, putMealParamsSchema, deleteMealParamsSchema,
      getMealParamsSchema;
    rewrite Hbad; reflexivity.
Qed.

(** C10: Update checks that the id exists before it looks at the body.
    With a well-formed id that no row carries, the reply is 404 with
    the error body whatever the body is; the validation error of the
    body is not thrown, the only query is the lookup, and no table
    changes. *)
Theorem update_of_absent_id_ignores_body (request : Request) (st : State) :
  is_uuid (params_id request) = true ->
  (forall m, In m (db_meals st) -> id m <> params_id request) ->
  let r := meals_put_id is_uuid coerce_date request st in
  fst r = inr (mkReply 404 (ErrorBody "Meal not found")) /\
  fst r <> inl ZodError /\
  queries (snd r) = queries st ++ [(t_meals, v_first)] /\
  db_meals (snd r) = db_meals st /\
  db_users (snd r) = db_users st.
Proof.
  intros Huuid Habsent r. subst r.
  apply find_by_id_none in Habsent.
  unfold meals_put_id, parse, putMealParamsSchema, getMealParamsSchema.
  rewrite Huuid.
  cbv [bind ret meals_first issue read_meals].
  destruct st as [us ms qs cs n]; simpl in *. rewrite Habsent. simpl.
  repeat split. discriminate.
Qed.

(** C3, amended: an Update with a well-formed id and a body that passes
    the body schema, for an id that some row carries and no row of the
    caller carries, answers 200 with no body and leaves every row of
    both tables as it was. *)
Theorem update_of_foreign_meal_is_silent
    (request : Request) (st : State) (b : MealBody) :
  is_uuid (params_id request) = true ->
  (exists m, In m (db_meals st) /\ id m = params_id request) ->
  (forall m, In m (db_meals st) -> id m = params_id request ->
             user_id m <> req_user_id request) ->
  putMealBodySchema coerce_date (body request) = Some b ->
  let r := meals_put_id is_uuid coerce_date request st in
  fst r = inr (mkReply 200 Empty) /\
  db_meals (snd r) = db_meals st /\
  db_users (snd r) = db_users st.
Proof.
  intros Huuid Hex Hforeign Hbody r. subst r.
  apply find_by_id_some in Hex. destruct Hex as [m Hm].
  pose proof (by_user_and_id_foreign _ _ _ Hforeign) as Hnone.
  unfold meals_put_id, parse, putMealParamsSchema, getMealParamsSchema.
  rewrite Huuid, Hbody.
  cbv [bind ret meals_first meals_update issue read_meals write_meals].
  destruct st as [us ms qs cs n]; simpl in *. rewrite Hm. simpl.
  rewrite (update_of_no_row _ _ _ Hnone). repeat split.
Qed.

End MealFacts.

Section CreateFacts.

Variable coerce_date : json -> option Z.
Variable uuid_stream : nat -> string.

(** C7: a Create whose body is an object with a string [name], a string
    [description], a boolean [isOnDiet] and a [date] that converts to a
    date answers 201 with no body and appends one row to the meals
    table: the id just drawn from [randomUUID], the caller's user id,
    the three submitted fields and the date in epoch milliseconds.  No
    other row changes; a List for the same caller afterwards returns
    what it returned before followed by that row; and when the drawn id
    was not in the table, that row is the only one carrying it. *)
Theorem create_inserts_one_meal
    (request : Request) (st : State)
    (members : list (string * json)) (n d : string) (b : bool)
    (dv : json) (t : Z) :
  body request = Some (JObj members) ->
  get_member "name" members = Some (JStr n) ->
  get_member "description" members = Some (JStr d) ->
  get_member "isOnDiet" members = Some (JBool b) ->
  get_member "date" members = Some dv ->
  coerce_date dv = Some t ->
  let row := mkMeal (uuid_stream (entropy st)) n d b t (req_user_id request) in
  let r := meals_post coerce_date uuid_stream request st in
  fst r = inr (mkReply 201 Empty) /\
  db_meals (snd r) = db_meals st ++ [row] /\
  db_users (snd r) = db_users st /\
  (forall later : Request,
      req_user_id later = req_user_id request ->
      fst (meals_get later (snd r))
      = inr (mkReply 200
               (MealsBody
                  (filter (by_user (req_user_id request)) (db_meals st)
                   ++ [row])))) /\
  (~ In (id row) (map id (db_meals st)) ->
   filter (by_id (id row)) (db_meals (snd r)) = [row]).
Proof.
  intros Hbody Hn Hd Hb Hdv Ht row r. subst r.
  unfold meals_post, parse, createMealBodySchema, z_coerce_date.
  rewrite Hbody, Hn, Hd, Hb, Hdv, Ht.
  cbv [bind ret randomUUID meals_insert issue read_meals write_meals
       z_string z_boolean].
  destruct st as [us ms qs cs k]; simpl in *. fold row.
  split; [reflexivity|]. split; [reflexivity|]. split; [reflexivity|].
  split.
  - intros later Hsame.
    rewrite Hsame, filter_app. simpl.
    unfold by_user at 2. simpl. rewrite String.eqb_refl. reflexivity.
  - intros Hfresh. rewrite filter_app. simpl.
    unfold by_id at 2. simpl. rewrite String.eqb_refl.
    replace (filter (by_id (uuid_stream k)) ms) with (@nil Meal);
      [reflexivity|].
    symmetry. clear -Hfresh. induction ms as [|m rest IH]; [reflexivity|].
    simpl in *. unfold by_id at 1.
    destruct (String.eqb_spec (id m) (uuid_stream k)) as [Heq|Hne].
    + exfalso. apply Hfresh. left. exact Heq.
    + apply IH. intros Hin. apply Hfresh. right. exact Hin.
Qed.

End CreateFacts.

(** ** The user registry *)

Lemma find_by_email_some (e : string) (us : list User) :
  (exists u, In u us /\ email u = e) -> exists u, find (by_email e) us = Some u.
Proof.
  intros (u & Hin & He).
  destruct (find (by_email e) us) as [u'|] eqn:E; [exists u'; reflexivity|].
  pose proof (find_none _ _ E u Hin) as Hf.
  unfold by_email in Hf. rewrite He, String.eqb_refl in Hf. discriminate.
Qed.

Lemma keeps_ret {A} (a : A) : keeps_cookies (ret a).
Proof. intros s. reflexivity. Qed.

Lemma keeps_throw {A} (e : Exn) : keeps_cookies (@throw A e).
Proof. intros s. reflexivity. Qed.

Lemma keeps_bind {A B} (c : M A) (k : A -> M B) :
  keeps_cookies c -> (forall a, keeps_cookies (k a)) ->
  keeps_cookies (bind c k).
Proof.
  intros Hc Hk s. unfold bind. specialize (Hc s).
  destruct (c s) as [[e|a] s']; simpl in *.
  - exact Hc.
  - rewrite Hk. exact Hc.
Qed.

Lemma keeps_issue (q : Query) : keeps_cookies (issue q).
Proof. intros s. reflexivity. Qed.

Lemma keeps_read_users : keeps_cookies read_users.
Proof. intros s. reflexivity. Qed.

Lemma keeps_read_meals : keeps_cookies read_meals.
Proof. intros s. reflexivity. Qed.

Lemma keeps_write_users (us : list User) : keeps_cookies (write_users us).
Proof. intros s. reflexivity. Qed.

Lemma keeps_write_meals (ms : list Meal) : keeps_cookies (write_meals ms).
Proof. intros s. reflexivity. Qed.

Lemma keeps_randomUUID (uuid_stream : nat -> string) :
  keeps_cookies (randomUUID uuid_stream).
Proof. intros s. reflexivity. Qed.

Lemma keeps_parse {I A} (schema : I -> option A) (input : I) :
  keeps_cookies (parse schema input).
Proof. intros s. unfold parse. destruct (schema input); reflexivity. Qed.

Create HintDb frame.

#[local] Hint Resolve keeps_ret keeps_throw keeps_issue keeps_read_users
  keeps_read_meals keeps_write_users keeps_write_meals keeps_randomUUID
  keeps_parse : frame.

(** Walks down a computation built from binds and case distinctions. *)
Ltac frame :=
  repeat first
    [ apply keeps_bind; [|intros ?]
    | match goal with
      | |- keeps_cookies (match ?x with _ => _ end) => destruct x
      end
    | solve [auto with frame] ].

Section RegistryFacts.

Variable is_uuid : string -> bool.
Variable coerce_date : json -> option Z.
Variable uuid_stream : nat -> string.
Variable orderBy_date_desc : list Meal -> list Meal.

(** C4, amended: a Register whose body passes the body schema and whose
    email some row of the users table already has answers 400 with the
    message "User already exists!"; it issues the lookup and no insert,
    and both tables are as they were. *)
Theorem register_duplicate_email_is_refused
    (request : Request) (st : State) (b : UserBody) :
  createUserBodySchema (body request) = Some b ->
  (exists u, In u (db_users st) /\ email u = ub_email b) ->
  let r := users_post uuid_stream request st in
  fst r = inr (mkReply 400 (MessageBody "User already exists!")) /\
  queries (snd r) = queries st ++ [(t_users, v_first)] /\
  db_users (snd r) = db_users st /\
  db_meals (snd r) = db_meals st.
Proof.
  intros Hbody Hdup r. subst r.
  apply find_by_email_some in Hdup. destruct Hdup as [u Hu].
  destruct st as [us ms qs cs n]; simpl in *.
  unfold users_post, parse. rewrite Hbody.
  destruct (cookies_sessionId request) as [s|];
    [destruct (not_ (Some s))|];
    cbv [new_session randomUUID reply_cookie users_first issue read_users
         bind ret]; simpl; rewrite Hu; simpl; repeat split.
Qed.

(** The part of Register that follows the session block. *)
Lemma keeps_register_tail (request : Request) (sessionId : string) :
  keeps_cookies
    (b <- parse createUserBodySchema (body request) ;;
     userByEmail <- users_first (by_email (ub_email b)) ;;
     match userByEmail with
     | Some _ => ret (mkReply 400 (MessageBody "User already exists!"))
     | None =>
         i <- randomUUID uuid_stream ;;
         users_insert (mkUser i (ub_name b) (ub_email b) sessionId) ;;;
         ret (mkReply 201 Empty)
     end).
Proof. unfold users_first, users_insert. frame. Qed.

Lemma keeps_of_handlers (r : Route) (request : Request) :
  r <> POST_users ->
  keeps_cookies
    (handler is_uuid coerce_date uuid_stream orderBy_date_desc r request).
Proof.
  intros Hr. destruct r; try congruence; simpl;
    unfold users_get, users_select_by_session, meals_post, meals_get,
      meals_metrics, meals_get_id, meals_put_id, meals_delete_id,
      meals_select, meals_first, meals_count, meals_insert, meals_update,
      meals_delete, meals_select_ordered;
    frame.
Qed.

(** C5, amended: the [sessionId] cookie, with path [/] and a max-age of
    604800 seconds, is put on the reply of a Register request exactly
    when the request carries no session token (the cookie is missing or
    empty), whether the registration then succeeds, is refused for a
    duplicate email or fails validation; no other handler puts a cookie
    on its reply. *)
Theorem session_cookie_set_iff_register_without_token
    (r : Route) (request : Request) (st : State) :
  cookies
    (snd (handler is_uuid coerce_date uuid_stream orderBy_date_desc
                  r request st))
  = match r with
    | POST_users =>
        if not_ (cookies_sessionId request)
        then cookies st
             ++ [mkCookie "sessionId" (uuid_stream (entropy st)) "/" 604800]
        else cookies st
    | _ => cookies st
    end.
Proof.
  destruct r;
    try (apply (keeps_of_handlers _ request); discriminate).
  simpl. unfold users_post.
  set (tail := fun sessionId : string => bind _ _).
  assert (Htail : forall sid, keeps_cookies (tail sid))
    by (intros sid; apply keeps_register_tail).
  destruct st as [us ms qs cs n].
  destruct (cookies_sessionId request) as [s|]; simpl;
    [destruct (String.eqb s "")|];
    unfold bind at 1; cbv [new_session randomUUID reply_cookie bind ret];
    simpl; rewrite Htail; reflexivity.
Qed.

End RegistryFacts.

(** ** The theorems at sample requests *)

Lemma get_by_id_not_found_iff_absent_witness :
  fst (meals_get_id uuid_shape (mkRequest None ana (id burger) None) store0)
  = inr (mkReply 200 (MealsBody [])).
Proof.
  apply (get_by_id_not_found_iff_absent
           uuid_shape (mkRequest None ana (id burger) None) store0).
  - reflexivity.
  - exists burger. split; [simpl; auto | reflexivity].
Defined.

Lemma malformed_id_fails_before_any_query_witness :
  handler uuid_shape date_of_epoch_number sample_uuids sort_date_desc
          PUT_meals_id
          (mkRequest None ana "not-a-uuid"
                     (Some (meal_json "soup" "hot" true 1700000000000)))
          store0
  = (inl ZodError, store0).
Proof.
  apply malformed_id_fails_before_any_query.
  - right. left. reflexivity.
  - reflexivity.
Defined.

Lemma update_of_absent_id_ignores_body_witness :
  let r := meals_put_id uuid_shape date_of_epoch_number
             (mkRequest None ana "ffffffff-ffff-4fff-8fff-ffffffffffff" None)
             store0 in
  fst r = inr (mkReply 404 (ErrorBody "Meal not found")) /\
  fst r <> inl ZodError /\
  queries (snd r) = queries store0 ++ [(t_meals, v_first)] /\
  db_meals (snd r) = db_meals store0 /\
  db_users (snd r) = db_users store0.
Proof.
  apply (update_of_absent_id_ignores_body uuid_shape date_of_epoch_number
           (mkRequest None ana "ffffffff-ffff-4fff-8fff-ffffffffffff" None)
           store0).
  - reflexivity.
  - simpl. intros m [<- | [<- | []]]; discriminate.
Defined.

Lemma update_of_foreign_meal_is_silent_witness :
  let r := meals_put_id uuid_shape date_of_epoch_number foreign_put store0 in
  fst r = inr (mkReply 200 Empty) /\
  db_meals (snd r) = db_meals store0 /\
  db_users (snd r) = db_users store0.
Proof.
  apply (update_of_foreign_meal_is_silent uuid_shape date_of_epoch_number
           foreign_put store0
           (mkMealBody "stolen" "bite" true 1700000999000)).
  - reflexivity.
  - exists burger. split; [simpl; auto | reflexivity].
  - simpl. intros m [<- | [<- | []]]; simpl; intros; discriminate.
  - reflexivity.
Defined.

(** C3 as stated fails: Ana's Update of Bia's burger, sent without a
    body, passes the lookup, throws the validation error of the body and
    so is not answered with 200. *)
Lemma update_of_foreign_meal_without_body_throws :
  uuid_shape (params_id foreign_put_no_body) = true /\
  (exists m, In m (db_meals store0) /\ id m = params_id foreign_put_no_body) /\
  (forall m, In m (db_meals store0) ->
             id m = params_id foreign_put_no_body ->
             user_id m <> req_user_id foreign_put_no_body) /\
  fst (meals_put_id uuid_shape date_of_epoch_number foreign_put_no_body store0)
  = inl ZodError /\
  fst (meals_put_id uuid_shape date_of_epoch_number foreign_put_no_body store0)
  <> inr (mkReply 200 Empty).
Proof.
  split; [reflexivity|].
  split; [exists burger; split; [simpl; auto | reflexivity]|].
  split; [simpl; intros m [<- | [<- | []]]; simpl; intros; discriminate|].
  split; [reflexivity | discriminate].
Qed.

Lemma create_inserts_one_meal_witness :
  let request := mkRequest None ana ""
                   (Some (meal_json "soup" "hot" true 1700000720000)) in
  let row := mkMeal (sample_uuids 0) "soup" "hot" true 1700000720000 ana in
  let r := meals_post date_of_epoch_number sample_uuids request store0 in
  fst r = inr (mkReply 201 Empty) /\
  db_meals (snd r) = [salad; burger; row] /\
  fst (meals_get request (snd r)) = inr (mkReply 200 (MealsBody [salad; row])) /\
  filter (by_id (id row)) (db_meals (snd r)) = [row].
Proof.
  intros request row r.
  destruct (create_inserts_one_meal date_of_epoch_number sample_uuids
              request store0
              [("name", JStr "soup"); ("description", JStr "hot");
               ("isOnDiet", JBool true); ("date", JNum 1700000720000 0)]
              "soup" "hot" true (JNum 1700000720000 0) 1700000720000
              eq_refl eq_refl eq_refl eq_refl eq_refl eq_refl)
    as (Hreply & Hrows & _ & Hlist & Hfresh).
  split; [exact Hreply|]. split; [exact Hrows|].
  split; [exact (Hlist request eq_refl)|].
  apply Hfresh. simpl. intros [H | [H | []]]; discriminate.
Defined.

Lemma register_duplicate_email_is_refused_witness :
  let r := users_post sample_uuids no_token store0 in
  fst r = inr (mkReply 400 (MessageBody "User already exists!")) /\
  queries (snd r) = queries store0 ++ [(t_users, v_first)] /\
  db_users (snd r) = db_users store0 /\
  db_meals (snd r) = db_meals store0.
Proof.
  apply (register_duplicate_email_is_refused sample_uuids no_token store0
           (mkUserBody "Rita B" "rita@example.com")).
  - reflexivity.
  - exists rita. split; [simpl; auto | reflexivity].
Defined.

(** C4 as stated fails: the message of the 400 reply ends in an
    exclamation mark, and a Register with a known email but no name gets
    no 400 reply at all, the body schema throws first. *)
Lemma register_duplicate_message_differs :
  (exists u, In u (db_users store0) /\ email u = "rita@example.com") /\
  fst (users_post sample_uuids no_token store0)
  = inr (mkReply 400 (MessageBody "User already exists!")) /\
  fst (users_post sample_uuids no_token store0)
  <> inr (mkReply 400 (MessageBody "User already exists")) /\
  (exists members,
      body nameless = Some (JObj members) /\
      get_member "email" members = Some (JStr (email rita))) /\
  fst (users_post sample_uuids nameless store0) = inl ZodError.
Proof.
  split; [exists rita; split; [simpl; auto | reflexivity]|].
  split; [reflexivity|].
  split; [discriminate|].
  split; [eexists; split; reflexivity | reflexivity].
Qed.

(** C5 as stated fails: a Register without a session token whose email is
    taken is refused with 400, inserts nothing, and its reply carries
    the [sessionId] cookie all the same. *)
Lemma cookie_set_on_refused_registration :
  cookies_sessionId no_token = None /\
  fst (users_post sample_uuids no_token store0)
  = inr (mkReply 400 (MessageBody "User already exists!")) /\
  db_users (snd (users_post sample_uuids no_token store0)) = db_users store0 /\
  cookies (snd (users_post sample_uuids no_token store0))
  = [mkCookie "sessionId" "9b2f4c1e-7a3d-4e5f-8a6b-0c1d2e3f4a5b" "/" 604800].
Proof. repeat split. Qed.

(** A first registration without a token: the cookie and the row share
    the session id just drawn. *)
Example first_registration :
  users_post sample_uuids
    (mkRequest None "" "" (Some (user_json "Ana" "ana@example.com")))
    (mkState [] [] [] [] 0)
  = (inr (mkReply 201 Empty),
     mkState [mkUser (sample_uuids 1) "Ana" "ana@example.com" (sample_uuids 0)]
             []
             [(t_users, v_first); (t_users, v_insert)]
             [mkCookie "sessionId" (sample_uuids 0) "/" 604800]
             2).
Proof. reflexivity. Qed.

(** A registration that brings its token gets no cookie. *)
Example registration_with_token :
  users_post sample_uuids
    (mkRequest (Some "5e55105e-0000-4000-8000-00000000abcd") "" ""
               (Some (user_json "Ana" "ana@example.com")))
    store0
  = (inr (mkReply 201 Empty),
     mkState [rita;
              mkUser (sample_uuids 0) "Ana" "ana@example.com"
                     "5e55105e-0000-4000-8000-00000000abcd"]
             [salad; burger]
             [(t_users, v_first); (t_users, v_insert)]
             []
             1).
Proof. reflexivity. Qed.

Example uuid_shape_accepts : uuid_shape (id salad) = true.
Proof. reflexivity. Qed.

Example uuid_shape_rejects :
  uuid_shape "3f2b8c1e-5d4a-4b6f-9a7e-1c2d3e4f5a6" = false
  /\ uuid_shape "3f2b8c1e5d4a4b6f9a7e1c2d3e4f5a6b" = false
  /\ uuid_shape "not-a-uuid" = false.
Proof. repeat split. Qed.


(** ** Each handler in one equation *)

Section Runs.

Variable is_uuid : string -> bool.
Variable coerce_date : json -> option Z.
Variable uuid_stream : nat -> string.
Variable orderBy_date_desc : list Meal -> list Meal.

Lemma meals_get_run (request : Request) (st : State) :
  meals_get request st
  = (inr (mkReply 200
            (MealsBody (filter (by_user (req_user_id request)) (db_meals st)))),
     mkState (db_users st) (db_meals st)
             (queries st ++ [(t_meals, v_select)]) (cookies st) (entropy st)).
Proof. reflexivity. Qed.

Lemma meals_post_run (request : Request) (st : State) :
  meals_post coerce_date uuid_stream request st
  = match createMealBodySchema coerce_date (body request) with
    | Some b =>
        (inr (mkReply 201 Empty),
         mkState (db_users st)
                 (db_meals st
                  ++ [mkMeal (uuid_stream (entropy st)) (mb_name b)
                             (mb_description b) (isOnDiet b) (mb_date b)
                             (req_user_id request)])
                 (queries st ++ [(t_meals, v_insert)]) (cookies st)
                 (S (entropy st)))
    | None => (inl ZodError, st)
    end.
Proof.
  unfold meals_post, parse.
  destruct (createMealBodySchema coerce_date (body request)); reflexivity.
Qed.

Lemma meals_get_id_run (request : Request) (st : State) :
  meals_get_id is_uuid request st
  = let i := params_id request in
    if is_uuid i then
      match find (by_id i) (db_meals st) with
      | None =>
          (inr (mkReply 404 (ErrorBody "Meal not found")),
           mkState (db_users st) (db_meals st)
                   (queries st ++ [(t_meals, v_first)]) (cookies st)
                   (entropy st))
      | Some _ =>
          (inr (mkReply 200
                  (MealsBody
                     (filter (by_user_and_id (req_user_id request) i)
                             (db_meals st)))),
           mkState (db_users st) (db_meals st)
                   ((queries st ++ [(t_meals, v_first)])
                    ++ [(t_meals, v_select)])
                   (cookies st) (entropy st))
      end
    else (inl ZodError, st).
Proof.
  unfold meals_get_id, parse, getMealParamsSchema. cbv zeta.
  destruct (is_uuid (params_id request)); [|reflexivity].
  cbv [bind ret meals_first meals_select issue read_meals].
  destruct st as [us ms qs cs n]; simpl.
  destruct (find (by_id (params_id request)) ms); reflexivity.
Qed.

Lemma meals_put_id_run (request : Request) (st : State) :
  meals_put_id is_uuid coerce_date request st
  = let i := params_id request in
    let looked := mkState (db_users st) (db_meals st)
                          (queries st ++ [(t_meals, v_first)]) (cookies st)
                          (entropy st) in
    if is_uuid i then
      match find (by_id i) (db_meals st) with
      | None => (inr (mkReply 404 (ErrorBody "Meal not found")), looked)
      | Some _ =>
          match putMealBodySchema coerce_date (body request) with
          | None => (inl ZodError, looked)
          | Some b =>
              (inr (mkReply 200 Empty),
               mkState (db_users st)
                       (map (fun m =>
                               if by_user_and_id (req_user_id request) i m
                               then set_fields (mb_name b) (mb_description b)
                                               (isOnDiet b) (mb_date b) m
                               else m)
                            (db_meals st))
                       ((queries st ++ [(t_meals, v_first)])
                        ++ [(t_meals, v_update)])
                       (cookies st) (entropy st))
          end
      end
    else (inl ZodError, st).
Proof.
  unfold meals_put_id, parse, putMealParamsSchema, getMealParamsSchema.
  cbv zeta.
  destruct (is_uuid (params_id request)); [|reflexivity].
  cbv [bind ret meals_first meals_update issue read_meals write_meals].
  destruct st as [us ms qs cs n]; simpl.
  destruct (find (by_id (params_id request)) ms); [|reflexivity].
  destruct (putMealBodySchema coerce_date (body request)); reflexivity.
Qed.

Lemma meals_delete_id_run (request : Request) (st : State) :
  meals_delete_id is_uuid request st
  = let i := params_id request in
    if is_uuid i then
      match find (by_id i) (db_meals st) with
      | None =>
          (inr (mkReply 404 (ErrorBody "Meal not found")),
           mkState (db_users st) (db_meals st)
                   (queries st ++ [(t_meals, v_first)]) (cookies st)
                   (entropy st))
      | Some _ =>
          (inr (mkReply 200 Empty),
           mkState (db_users st)
                   (filter (fun m =>
                              negb (by_user_and_id (req_user_id request) i m))
                           (db_meals st))
                   ((queries st ++ [(t_meals, v_first)])
                    ++ [(t_meals, v_delete)])
                   (cookies st) (entropy st))
      end
    else (inl ZodError, st).
Proof.
  unfold meals_delete_id, parse, deleteMealParamsSchema, getMealParamsSchema.
  cbv zeta.
  destruct (is_uuid (params_id request)); [|reflexivity].
  cbv [bind ret meals_first meals_delete issue read_meals write_meals].
  destruct st as [us ms qs cs n]; simpl.
  destruct (find (by_id (params_id request)) ms); reflexivity.
Qed.

Lemma users_get_run (request : Request) (st : State) :
  users_get request st
  = match cookies_sessionId request with
    | Some s =>
        (inr (mkReply 200 (UsersBody (filter (by_session s) (db_users st)))),
         mkState (db_users st) (db_meals st)
                 (queries st ++ [(t_users, v_select)]) (cookies st)
                 (entropy st))
    | None => (inl KnexError, st)
    end.
Proof.
  unfold users_get, users_select_by_session.
  destruct (cookies_sessionId request); reflexivity.
Qed.

Lemma users_post_run (request : Request) (st : State) :
  users_post uuid_stream request st
  = let fresh := not_ (cookies_sessionId request) in
    let sid := session_of uuid_stream request st in
    let cs := if fresh
              then cookies st ++ [mkCookie "sessionId" sid "/" 604800]
              else cookies st in
    let n := if fresh then S (entropy st) else entropy st in
    match createUserBodySchema (body request) with
    | None =>
        (inl ZodError, mkState (db_users st) (db_meals st) (queries st) cs n)
    | Some b =>
        match find (by_email (ub_email b)) (db_users st) with
        | Some _ =>
            (inr (mkReply 400 (MessageBody "User already exists!")),
             mkState (db_users st) (db_meals st)
                     (queries st ++ [(t_users, v_first)]) cs n)
        | None =>
            (inr (mkReply 201 Empty),
             mkState (db_users st
                      ++ [mkUser (uuid_stream n) (ub_name b) (ub_email b) sid])
                     (db_meals st)
                     ((queries st ++ [(t_users, v_first)])
                      ++ [(t_users, v_insert)])
                     cs (S n))
        end
    end.
Proof.
  unfold users_post, session_of, parse. cbv zeta.
  destruct st as [us ms qs cs n].
  destruct (cookies_sessionId request) as [s|]; simpl;
    [destruct (String.eqb s "")|];
    unfold bind at 1; cbv [new_session randomUUID reply_cookie bind ret];
    simpl;
    (destruct (createUserBodySchema (body request)) as [b|]; [|reflexivity]);
    cbv [users_first users_insert issue read_users write_users randomUUID
         bind ret]; simpl;
    destruct (find (by_email (ub_email b)) us); reflexivity.
Qed.

End Runs.

(** ** The streak is the longest run *)

Lemma streak_best_grows (flags : list bool) (c b : nat) :
  b <= snd (fold_left streak_step flags (c, b)).
Proof.
  revert c b. induction flags as [|x rest IH]; intros c b; simpl; [lia|].
  etransitivity; [|apply IH]. lia.
Qed.

Lemma streak_run_counted (run post : list bool) (c b : nat) :
  c <= b ->
  forallb (fun x => x) run = true ->
  c + List.length run <= snd (fold_left streak_step (run ++ post) (c, b)).
Proof.
  revert c b. induction run as [|x rest IH]; intros c b Hcb Hall; simpl.
  - pose proof (streak_best_grows post c b). lia.
  - simpl in Hall. apply andb_prop in Hall. destruct Hall as [-> Hrest].
    specialize (IH (S c) (Nat.max b (S c)) (Nat.le_max_r _ _) Hrest).
    simpl in IH. lia.
Qed.

Lemma streak_current_le_best (flags : list bool) (c b : nat) :
  c <= b ->
  fst (fold_left streak_step flags (c, b))
  <= snd (fold_left streak_step flags (c, b)).
Proof.
  revert c b. induction flags as [|x rest IH]; intros c b Hcb; simpl; [exact Hcb|].
  apply IH. destruct x; lia.
Qed.

(** No run of on-diet flags is longer than the streak found. *)
Lemma best_streak_bounds_runs (pre run post : list bool) :
  forallb (fun x => x) run = true ->
  List.length run <= best_streak (pre ++ run ++ post).
Proof.
  intros Hall. unfold best_streak. rewrite fold_left_app.
  pose proof (streak_current_le_best pre 0 0 (le_n 0)) as Hinv.
  destruct (fold_left streak_step pre (0, 0)) as [c b]. simpl in Hinv.
  pose proof (streak_run_counted run post c b Hinv Hall). lia.
Qed.

(** The current streak is a run that ends the list read so far, and the
    best streak is a run somewhere in it. *)
Lemma streak_counters_are_runs (flags : list bool) :
  (exists pre run,
      flags = pre ++ run /\ forallb (fun x => x) run = true /\
      List.length run = fst (fold_left streak_step flags (0, 0))) /\
  (exists pre run post,
      flags = pre ++ run ++ post /\ forallb (fun x => x) run = true /\
      List.length run = snd (fold_left streak_step flags (0, 0))).
Proof.
  induction flags as [|x seen IH] using rev_ind.
  - split; [exists [], [] | exists [], [], []]; repeat split.
  - rewrite fold_left_app. simpl.
    destruct IH as [(pre & run & Hsplit & Hall & Hlen)
                    (pre' & run' & post' & Hsplit' & Hall' & Hlen')].
    destruct (fold_left streak_step seen (0, 0)) as [c b]. simpl in *.
    destruct x.
    + split.
      * exists pre, (run ++ [true]). repeat split.
        -- rewrite Hsplit, <- app_assoc. reflexivity.
        -- rewrite forallb_app, Hall. reflexivity.
        -- rewrite length_app. simpl. lia.
      * destruct (Nat.le_gt_cases (S c) b) as [Hle|Hgt].
        -- exists pre', run', (post' ++ [true]). repeat split.
           ++ rewrite Hsplit' at 1. rewrite <- !app_assoc. reflexivity.
           ++ exact Hall'.
           ++ lia.
        -- exists pre, (run ++ [true]), []. repeat split.
           ++ rewrite Hsplit at 1. rewrite app_nil_r, <- app_assoc. reflexivity.
           ++ rewrite forallb_app, Hall. reflexivity.
           ++ rewrite length_app. simpl. lia.
    + split.
      * exists (seen ++ [false]), []. repeat split.
        rewrite app_nil_r. reflexivity.
      * exists pre', run', (post' ++ [false]). repeat split.
        -- rewrite Hsplit' at 1. rewrite <- !app_assoc. reflexivity.
        -- exact Hall'.
        -- lia.
Qed.

Lemma filter_flag_split {A} (p : A -> bool) (l : list A) :
  List.length (filter p l) + List.length (filter (fun x => negb (p x)) l)
  = List.length l.
Proof.
  induction l as [|x rest IH]; simpl; [reflexivity|].
  destruct (p x); simpl; lia.
Qed.

Lemma filter_user_off_diet (u : string) (ms : list Meal) :
  filter (fun m => negb (is_on_diet m)) (filter (by_user u) ms)
  = filter (by_user_and_diet u false) ms.
Proof.
  induction ms as [|m rest IH]; simpl; [reflexivity|].
  unfold by_user, by_user_and_diet in *.
  destruct (String.eqb (user_id m) u); simpl.
  - destruct (is_on_diet m); simpl; congruence.
  - exact IH.
Qed.

Lemma all_flags_filter (flags : list bool) :
  List.length (filter (fun b => b) flags) = List.length flags ->
  forallb (fun b => b) flags = true.
Proof.
  induction flags as [|x rest IH]; simpl; [reflexivity|].
  destruct x; simpl.
  - intros H. apply IH. lia.
  - intros H. pose proof (filter_length_le (fun b => b) rest). lia.
Qed.

Lemma some_flag_some_streak (flags : list bool) :
  best_streak flags = 0 -> List.length (filter (fun b => b) flags) = 0.
Proof.
  intros Hzero.
  induction flags as [|x rest IH] using rev_ind; [reflexivity|].
  rewrite filter_app, length_app. simpl.
  destruct x; simpl.
  - pose proof (best_streak_bounds_runs rest [true] [] eq_refl) as H.
    simpl in H. rewrite Hzero in H. lia.
  - rewrite IH; [reflexivity|].
    pose proof (streak_best_grows [false]
                  (fst (fold_left streak_step rest (0, 0)))
                  (snd (fold_left streak_step rest (0, 0)))) as H.
    unfold best_streak in *. rewrite fold_left_app in Hzero.
    destruct (fold_left streak_step rest (0, 0)) as [c b].
    simpl in *. lia.
Qed.

Section StreakFacts.

Variable orderBy_date_desc : list Meal -> list Meal.

Hypothesis orderBy_perm :
  forall l, Permutation (orderBy_date_desc l) l.

Lemma counts_add_up (u : string) (ms : list Meal) :
  List.length (filter (by_user_and_diet u true) ms)
  + List.length (filter (by_user_and_diet u false) ms)
  = List.length (orderBy_date_desc (filter (by_user u) ms)).
Proof.
  rewrite (Permutation_length (orderBy_perm _)).
  rewrite <- filter_user_diet, <- filter_user_off_diet.
  apply filter_flag_split.
Qed.

(** X1: in every metrics reply the on-diet and the off-diet count add up
    to [totalMeals]. *)
Theorem metrics_on_plus_off_is_total (request : Request) (st : State) :
  exists m : Metrics,
    fst (meals_metrics orderBy_date_desc request st)
    = inr (mkReply 200 (MetricsBody m)) /\
    totalMealsOnDiet m + totalMealsOffDiet m = totalMeals m.
Proof.
  rewrite meals_metrics_run. cbv zeta.
  eexists. split; [reflexivity|]. simpl.
  apply counts_add_up.
Qed.

(** X2: [bestOnDietSequence] is the length of the longest run of
    consecutive on-diet meals in the ordered list: no stretch of the
    list made of on-diet meals only is longer, and one stretch has
    exactly that length. *)
Theorem metrics_best_sequence_is_longest_run (request : Request) (st : State) :
  let flags :=
    map is_on_diet
        (orderBy_date_desc
           (filter (by_user (req_user_id request)) (db_meals st))) in
  exists m : Metrics,
    fst (meals_metrics orderBy_date_desc request st)
    = inr (mkReply 200 (MetricsBody m)) /\
    (forall pre run post,
        flags = pre ++ run ++ post ->
        forallb (fun b => b) run = true ->
        List.length run <= bestOnDietSequence m) /\
    (exists pre run post,
        flags = pre ++ run ++ post /\
        forallb (fun b => b) run = true /\
        List.length run = bestOnDietSequence m).
Proof.
  intros flags. rewrite meals_metrics_run. cbv zeta.
  eexists. split; [reflexivity|]. simpl.
  rewrite reduce_best_streak. fold flags. split.
  - intros pre run post -> Hall. apply best_streak_bounds_runs. exact Hall.
  - exact (proj2 (streak_counters_are_runs flags)).
Qed.

(** X3: [bestOnDietSequence] is 0 exactly when the caller has no on-diet
    meal, and it is [totalMeals] exactly when the caller has no off-diet
    meal. *)
Theorem metrics_best_sequence_extremes (request : Request) (st : State) :
  exists m : Metrics,
    fst (meals_metrics orderBy_date_desc request st)
    = inr (mkReply 200 (MetricsBody m)) /\
    (bestOnDietSequence m = 0 <-> totalMealsOnDiet m = 0) /\
    (bestOnDietSequence m = totalMeals m <-> totalMealsOffDiet m = 0).
Proof.
  rewrite meals_metrics_run. cbv zeta.
  eexists. split; [reflexivity|]. simpl.
  pose proof (counts_add_up (req_user_id request) (db_meals st)) as Hsum.
  revert Hsum.
  set (u := req_user_id request).
  set (meals := orderBy_date_desc (filter (by_user u) (db_meals st))).
  rewrite reduce_best_streak.
  assert (Hon : List.length (filter (by_user_and_diet u true) (db_meals st))
                = List.length (filter (fun b => b) (map is_on_diet meals))).
  { rewrite filter_map_flags. unfold meals.
    rewrite (filter_length_perm is_on_diet _ _ (orderBy_perm _)).
    rewrite filter_user_diet. reflexivity. }
  rewrite Hon. intros Hsum.
  pose proof (best_streak_le_on_diet (map is_on_diet meals)) as Hle.
  pose proof (filter_length_le (fun b => b) (map is_on_diet meals)) as Hle'.
  rewrite length_map in Hle'.
  split; split.
  - apply some_flag_some_streak.
  - lia.
  - lia.
  - intros Hoff.
    assert (Hall : forallb (fun b => b) (map is_on_diet meals) = true).
    { apply all_flags_filter. rewrite length_map. lia. }
    pose proof (best_streak_bounds_runs [] (map is_on_diet meals) [] Hall) as H.
    simpl in H. rewrite app_nil_r, length_map in H. lia.
Qed.

End StreakFacts.

(** ** What a request can do to the tables *)

Lemma keep_ids_of_update (p : Meal -> bool) (n d : string) (b : bool) (t : Z)
    (ms : list Meal) :
  map id (map (fun m => if p m then set_fields n d b t m else m) ms)
  = map id ms.
Proof.
  rewrite map_map. apply map_ext. intros m. destruct (p m); reflexivity.
Qed.

Lemma keep_owners_of_update (p : Meal -> bool) (n d : string) (b : bool)
    (t : Z) (ms : list Meal) :
  map user_id (map (fun m => if p m then set_fields n d b t m else m) ms)
  = map user_id ms.
Proof.
  rewrite map_map. apply map_ext. intros m. destruct (p m); reflexivity.
Qed.

Lemma ids_unique_after_delete (gone : Meal -> bool) (ms : list Meal) :
  NoDup (map id ms) -> NoDup (map id (filter (fun m => negb (gone m)) ms)).
Proof.
  intros Hnd. induction ms as [|m rest IH]; simpl; [constructor|].
  apply NoDup_cons_iff in Hnd. destruct Hnd as [Hnew Hrest].
  destruct (gone m); simpl; [exact (IH Hrest)|].
  apply NoDup_cons_iff. split; [|exact (IH Hrest)].
  rewrite in_map_iff. intros (m' & Hid & Hkept).
  apply filter_In in Hkept. apply Hnew. rewrite <- Hid.
  apply in_map. exact (proj1 Hkept).
Qed.

Lemma NoDup_map_snoc {A B} (f : A -> B) (l : list A) (x : A) :
  NoDup (map f l) -> ~ In (f x) (map f l) -> NoDup (map f (l ++ [x])).
Proof.
  intros Hnd Hfresh. rewrite map_app. simpl.
  apply NoDup_app; [exact Hnd | repeat constructor; intros [] |].
  intros y Hy [<- | []]. exact (Hfresh Hy).
Qed.

Lemma find_by_email_none (e : string) (us : list User) :
  find (by_email e) us = None -> ~ In e (map email us).
Proof.
  intros Hnone Hin. apply in_map_iff in Hin. destruct Hin as (u & He & Hin).
  pose proof (find_none _ _ Hnone u Hin) as Hf.
  unfold by_email in Hf. rewrite He, String.eqb_refl in Hf. discriminate.
Qed.

Lemma others_after_update (u caller i n d : string) (b : bool) (t : Z)
    (ms : list Meal) :
  u <> caller ->
  filter (by_user u)
         (map (fun m => if by_user_and_id caller i m
                        then set_fields n d b t m else m) ms)
  = filter (by_user u) ms.
Proof.
  intros Hother. induction ms as [|m rest IH]; simpl; [reflexivity|].
  rewrite IH. unfold by_user_and_id, by_user.
  destruct (String.eqb_spec (user_id m) caller) as [Hc|Hc]; simpl;
    [|reflexivity].
  destruct (String.eqb (id m) i); simpl; [|reflexivity].
  destruct (String.eqb_spec (user_id m) u) as [Hu|Hu]; [congruence|reflexivity].
Qed.

Lemma others_after_delete (u caller i : string) (ms : list Meal) :
  u <> caller ->
  filter (by_user u)
         (filter (fun m => negb (by_user_and_id caller i m)) ms)
  = filter (by_user u) ms.
Proof.
  intros Hother. induction ms as [|m rest IH]; simpl; [reflexivity|].
  unfold by_user_and_id, by_user in *.
  destruct (String.eqb_spec (user_id m) caller) as [Hc|Hc]; simpl.
  - destruct (String.eqb (id m) i); simpl.
    + destruct (String.eqb_spec (user_id m) u) as [Hu|Hu];
        [congruence | exact IH].
    + rewrite IH. reflexivity.
  - rewrite IH. reflexivity.
Qed.

Lemma others_after_insert (u : string) (row : Meal) (ms : list Meal) :
  u <> user_id row ->
  filter (by_user u) (ms ++ [row]) = filter (by_user u) ms.
Proof.
  intros Hother. rewrite filter_app. simpl. unfold by_user at 2.
  destruct (String.eqb_spec (user_id row) u) as [Hu|Hu]; [congruence|].
  apply app_nil_r.
Qed.

Section HandlerFacts.

Variable is_uuid : string -> bool.
Variable coerce_date : json -> option Z.
Variable uuid_stream : nat -> string.
Variable orderBy_date_desc : list Meal -> list Meal.

Local Notation "'run'" :=
  (handler is_uuid coerce_date uuid_stream orderBy_date_desc).

(** The four things a request can do to the meals table. *)
Lemma meals_after (r : Route) (request : Request) (st : State) :
  let caller := req_user_id request in
  let ms' := db_meals (snd (run r request st)) in
  ms' = db_meals st
  \/ (r = POST_meals /\
      exists n d b t,
        ms' = db_meals st
              ++ [mkMeal (uuid_stream (entropy st)) n d b t caller])
  \/ (r = PUT_meals_id /\
      exists n d b t,
        ms' = map (fun m => if by_user_and_id caller (params_id request) m
                            then set_fields n d b t m else m)
                  (db_meals st))
  \/ (r = DELETE_meals_id /\
      ms' = filter (fun m => negb (by_user_and_id caller (params_id request) m))
                   (db_meals st)).
Proof.
  destruct r; simpl.
  - rewrite users_get_run.
    destruct (cookies_sessionId request); left; reflexivity.
  - rewrite users_post_run. cbv zeta.
    destruct (createUserBodySchema (body request)) as [b|];
      [destruct (find (by_email (ub_email b)) (db_users st))|];
      left; reflexivity.
  - rewrite meals_post_run.
    destruct (createMealBodySchema coerce_date (body request)) as [b|];
      simpl; [|left; reflexivity].
    right. left. split; [reflexivity|]. eauto.
  - left. reflexivity.
  - left. reflexivity.
  - rewrite meals_get_id_run. cbv zeta.
    destruct (is_uuid (params_id request));
      [destruct (find (by_id (params_id request)) (db_meals st))|];
      left; reflexivity.
  - rewrite meals_put_id_run. cbv zeta.
    destruct (is_uuid (params_id request)); [|left; reflexivity].
    destruct (find (by_id (params_id request)) (db_meals st));
      [|left; reflexivity].
    destruct (putMealBodySchema coerce_date (body request)) as [b|];
      simpl; [|left; reflexivity].
    right. right. left. split; [reflexivity|]. eauto.
  - rewrite meals_delete_id_run. cbv zeta.
    destruct (is_uuid (params_id request)); [|left; reflexivity].
    destruct (find (by_id (params_id request)) (db_meals st));
      simpl; [|left; reflexivity].
    right. right. right. split; reflexivity.
Qed.

(** The one thing a request can do to the users table. *)
Lemma users_after (r : Route) (request : Request) (st : State) :
  let us' := db_users (snd (run r request st)) in
  us' = db_users st
  \/ (r = POST_users /\
      exists i b,
        createUserBodySchema (body request) = Some b /\
        find (by_email (ub_email b)) (db_users st) = None /\
        us' = db_users st
              ++ [mkUser i (ub_name b) (ub_email b)
                         (session_of uuid_stream request st)]).
Proof.
  destruct r; simpl.
  - rewrite users_get_run.
    destruct (cookies_sessionId request); left; reflexivity.
  - rewrite users_post_run. cbv zeta.
    destruct (createUserBodySchema (body request)) as [b|] eqn:Hb;
      [|left; reflexivity].
    destruct (find (by_email (ub_email b)) (db_users st)) eqn:Hf;
      [left; reflexivity|].
    right. split; [reflexivity|]. simpl. eauto.
  - rewrite meals_post_run.
    destruct (createMealBodySchema coerce_date (body request));
      left; reflexivity.
  - left. reflexivity.
  - left. reflexivity.
  - rewrite meals_get_id_run. cbv zeta.
    destruct (is_uuid (params_id request));
      [destruct (find (by_id (params_id request)) (db_meals st))|];
      left; reflexivity.
  - rewrite meals_put_id_run. cbv zeta.
    destruct (is_uuid (params_id request)); [|left; reflexivity].
    destruct (find (by_id (params_id request)) (db_meals st));
      [|left; reflexivity].
    destruct (putMealBodySchema coerce_date (body request));
      left; reflexivity.
  - rewrite meals_delete_id_run. cbv zeta.
    destruct (is_uuid (params_id request));
      [destruct (find (by_id (params_id request)) (db_meals st))|];
      left; reflexivity.
Qed.

(** X4: the four GET handlers only read: whatever the request and
    however they end, both tables are as they were, no UUID is drawn,
    and every query they issue is a select, a first or a count. *)
Theorem get_routes_only_read (r : Route) (request : Request) (st : State) :
  r = GET_users \/ r = GET_meals \/ r = GET_meals_metrics \/ r = GET_meals_id ->
  let st' := snd (run r request st) in
  db_users st' = db_users st /\
  db_meals st' = db_meals st /\
  entropy st' = entropy st /\
  exists issued,
    queries st' = queries st ++ issued /\ forallb reads issued = true.
Proof.
  intros [-> | [-> | [-> | ->]]]; simpl.
  - rewrite users_get_run.
    destruct (cookies_sessionId request); simpl; repeat split.
    + eexists. split; reflexivity.
    + exists []. rewrite app_nil_r. split; reflexivity.
  - repeat split. eexists. split; reflexivity.
  - repeat split. rewrite <- !app_assoc. eexists. split; reflexivity.
  - rewrite meals_get_id_run. cbv zeta.
    destruct (is_uuid (params_id request));
      [destruct (find (by_id (params_id request)) (db_meals st))|];
      simpl; repeat split.
    + rewrite <- !app_assoc. eexists. split; reflexivity.
    + eexists. split; reflexivity.
    + exists []. rewrite app_nil_r. split; reflexivity.
Qed.

(** X5: the two route groups keep to their own table: no handler of the
    users routes changes the meals table and no handler of the meals
    routes changes the users table, whatever the request. *)
Theorem routes_keep_to_their_table (r : Route) (request : Request) (st : State) :
  match r with
  | GET_users | POST_users =>
      db_meals (snd (run r request st)) = db_meals st
  | _ =>
      db_users (snd (run r request st)) = db_users st
  end.
Proof.
  destruct r.
  - destruct (meals_after GET_users request st)
      as [H | [[H _] | [[H _] | [H _]]]]; [exact H | discriminate ..].
  - destruct (meals_after POST_users request st)
      as [H | [[H _] | [[H _] | [H _]]]]; [exact H | discriminate ..].
  - destruct (users_after POST_meals request st) as [H | [H _]];
      [exact H | discriminate].
  - destruct (users_after GET_meals request st) as [H | [H _]];
      [exact H | discriminate].
  - destruct (users_after GET_meals_metrics request st) as [H | [H _]];
      [exact H | discriminate].
  - destruct (users_after GET_meals_id request st) as [H | [H _]];
      [exact H | discriminate].
  - destruct (users_after PUT_meals_id request st) as [H | [H _]];
      [exact H | discriminate].
  - destruct (users_after DELETE_meals_id request st) as [H | [H _]];
      [exact H | discriminate].
Qed.

(** X6: no request touches the meals of another user: for every route
    and request, the rows of any user other than the caller are after
    the request what they were before, in the same order. *)
Theorem meals_of_others_untouched
    (r : Route) (request : Request) (st : State) (u : string) :
  u <> req_user_id request ->
  filter (by_user u) (db_meals (snd (run r request st)))
  = filter (by_user u) (db_meals st).
Proof.
  intros Hother.
  destruct (meals_after r request st)
    as [H | [[_ (n & d & b & t & H)] | [[_ (n & d & b & t & H)] | [_ H]]]];
    rewrite H.
  - reflexivity.
  - apply others_after_insert. exact Hother.
  - apply others_after_update. exact Hother.
  - apply others_after_delete. exact Hother.
Qed.

(** X7: meal ids stay unique: if no two rows of the meals table share an
    id, and the UUID a Create is about to draw is not in the table, then
    no two rows share an id after the request, whatever the route. *)
Theorem meal_ids_stay_unique (r : Route) (request : Request) (st : State) :
  NoDup (map id (db_meals st)) ->
  (r = POST_meals -> ~ In (uuid_stream (entropy st)) (map id (db_meals st))) ->
  NoDup (map id (db_meals (snd (run r request st)))).
Proof.
  intros Hnd Hfresh.
  destruct (meals_after r request st)
    as [H | [[Hr (n & d & b & t & H)] | [[_ (n & d & b & t & H)] | [_ H]]]];
    rewrite H.
  - exact Hnd.
  - apply NoDup_map_snoc; [exact Hnd | exact (Hfresh Hr)].
  - rewrite keep_ids_of_update. exact Hnd.
  - apply ids_unique_after_delete. exact Hnd.
Qed.

(** X8: no row changes its id or its owner, and only Create and Delete
    change which rows there are: for every route but those two, Update
    included, the list of (id, owner) pairs of the meals table is after
    the request what it was before. *)
Theorem ids_and_owners_are_fixed (r : Route) (request : Request) (st : State) :
  r <> POST_meals -> r <> DELETE_meals_id ->
  map (fun m => (id m, user_id m)) (db_meals (snd (run r request st)))
  = map (fun m => (id m, user_id m)) (db_meals st).
Proof.
  intros Hpost Hdel.
  destruct (meals_after r request st)
    as [H | [[Hr _] | [[_ (n & d & b & t & H)] | [Hr _]]]].
  - rewrite H. reflexivity.
  - contradiction.
  - rewrite H, map_map. apply map_ext. intros m.
    destruct (by_user_and_id _ _ m); reflexivity.
  - contradiction.
Qed.

(** X9: emails stay unique: if no two rows of the users table share an
    email, none do after any request.  The lookup before the insert is
    what keeps it so; nothing has to be assumed of the UUIDs. *)
Theorem emails_stay_unique (r : Route) (request : Request) (st : State) :
  NoDup (map email (db_users st)) ->
  NoDup (map email (db_users (snd (run r request st)))).
Proof.
  intros Hnd.
  destruct (users_after r request st) as [H | [_ (i & b & _ & Hnone & H)]];
    rewrite H; [exact Hnd|].
  apply NoDup_map_snoc; [exact Hnd|].
  simpl. apply find_by_email_none. exact Hnone.
Qed.

End HandlerFacts.

(** ** Requests one after the other *)

Lemma find_by_id_in (m : Meal) (ms : list Meal) :
  In m ms -> exists m', find (by_id (id m)) ms = Some m'.
Proof.
  intros Hin. apply find_by_id_some. exists m. split; [exact Hin|reflexivity].
Qed.

Lemma only_row_of_id (m : Meal) (ms : list Meal) :
  NoDup (map id ms) -> In m ms -> filter (by_id (id m)) ms = [m].
Proof.
  induction ms as [|x rest IH]; simpl; intros Hnd Hin; [contradiction|].
  inversion Hnd as [|? ? Hnotin Hrest]; subst.
  unfold by_id at 1.
  destruct Hin as [-> | Hin].
  - rewrite String.eqb_refl. f_equal.
    destruct (filter (by_id (id m)) rest) as [|y l] eqn:E; [reflexivity|].
    exfalso. apply Hnotin.
    assert (Hy : In y (filter (by_id (id m)) rest)) by (rewrite E; left; reflexivity).
    apply filter_In in Hy. destruct Hy as [Hy Hid].
    unfold by_id in Hid. apply String.eqb_eq in Hid.
    rewrite <- Hid. apply in_map. exact Hy.
  - destruct (String.eqb_spec (id x) (id m)) as [Heq|_].
    + exfalso. apply Hnotin. rewrite Heq. apply in_map. exact Hin.
    + apply IH; assumption.
Qed.

Lemma by_user_and_id_split (u i : string) (ms : list Meal) :
  filter (by_user_and_id u i) ms = filter (by_user u) (filter (by_id i) ms).
Proof.
  induction ms as [|x rest IH]; simpl; [reflexivity|].
  unfold by_user_and_id, by_id, by_user in *.
  destruct (String.eqb (id x) i) eqn:Ei, (String.eqb (user_id x) u) eqn:Eu;
    simpl; rewrite ?Eu, ?IH; reflexivity.
Qed.

Lemma own_row_of_id (m : Meal) (ms : list Meal) :
  NoDup (map id ms) -> In m ms ->
  filter (by_user_and_id (user_id m) (id m)) ms = [m].
Proof.
  intros Hnd Hin. rewrite by_user_and_id_split, (only_row_of_id m ms Hnd Hin).
  simpl. unfold by_user. rewrite String.eqb_refl. reflexivity.
Qed.

Lemma filter_of_rewritten (p : Meal -> bool) (f : Meal -> Meal)
    (ms : list Meal) :
  (forall m, p (f m) = p m) ->
  filter p (map (fun m => if p m then f m else m) ms) = map f (filter p ms).
Proof.
  intros Hkeep. induction ms as [|x rest IH]; simpl; [reflexivity|].
  destruct (p x) eqn:E.
  - rewrite Hkeep, E. simpl. rewrite IH. reflexivity.
  - rewrite E. exact IH.
Qed.

Lemma find_of_rewritten (i : string) (p : Meal -> bool) (f : Meal -> Meal)
    (ms : list Meal) :
  (forall m, id (f m) = id m) ->
  find (by_id i) ms <> None ->
  find (by_id i) (map (fun m => if p m then f m else m) ms) <> None.
Proof.
  intros Hkeep. induction ms as [|x rest IH]; simpl; [tauto|].
  unfold by_id at 1 3.
  replace (id (if p x then f x else x)) with (id x)
    by (destruct (p x); [rewrite Hkeep|]; reflexivity).
  destruct (String.eqb (id x) i); [discriminate | exact IH].
Qed.

Lemma rewrite_twice (p : Meal -> bool) (f : Meal -> Meal) (ms : list Meal) :
  (forall m, p (f m) = p m) -> (forall m, f (f m) = f m) ->
  map (fun m => if p m then f m else m)
      (map (fun m => if p m then f m else m) ms)
  = map (fun m => if p m then f m else m) ms.
Proof.
  intros Hkeep Hidem. rewrite map_map. apply map_ext. intros m.
  destruct (p m) eqn:E; [rewrite Hkeep, E, Hidem | rewrite E]; reflexivity.
Qed.

Lemma filter_twice {A} (p : A -> bool) (l : list A) :
  filter p (filter p l) = filter p l.
Proof.
  induction l as [|x rest IH]; simpl; [reflexivity|].
  destruct (p x) eqn:E; simpl; rewrite ?E, IH; reflexivity.
Qed.

Lemma gone_after_delete (m : Meal) (ms : list Meal) :
  NoDup (map id ms) -> In m ms ->
  find (by_id (id m))
       (filter (fun x => negb (by_user_and_id (user_id m) (id m) x)) ms)
  = None.
Proof.
  intros Hnd Hin. apply find_by_id_none. intros x Hx Hid.
  apply filter_In in Hx. destruct Hx as [Hx Hkept].
  assert (Hxm : In x (filter (by_id (id m)) ms)).
  { apply filter_In. split; [exact Hx|]. unfold by_id.
    apply String.eqb_eq. exact Hid. }
  rewrite (only_row_of_id m ms Hnd Hin) in Hxm.
  destruct Hxm as [<- | []].
  unfold by_user_and_id in Hkept. rewrite !String.eqb_refl in Hkept.
  discriminate.
Qed.

Lemma createMealBodySchema_spec (coerce_date : json -> option Z)
    (input : option json) (n d : string) (b : bool) (t : Z) :
  createMealBodySchema coerce_date input = Some (mkMealBody n d b t)
  <-> exists members dv,
        input = Some (JObj members) /\
        get_member "name" members = Some (JStr n) /\
        get_member "description" members = Some (JStr d) /\
        get_member "isOnDiet" members = Some (JBool b) /\
        get_member "date" members = Some dv /\
        coerce_date dv = Some t.
Proof.
  unfold createMealBodySchema, z_string, z_boolean, z_coerce_date. split.
  - destruct input as [[| | | | |members]|]; try discriminate.
    destruct (get_member "name" members) as [[| | |n'| |]|] eqn:Hn;
      try discriminate.
    destruct (get_member "description" members) as [[| | |d'| |]|] eqn:Hd;
      try discriminate.
    destruct (get_member "isOnDiet" members) as [[|b'| | | |]|] eqn:Hb;
      try discriminate.
    destruct (get_member "date" members) as [dv|] eqn:Hdv; try discriminate.
    destruct (coerce_date dv) as [t'|] eqn:Ht; try discriminate.
    intros H. injection H as -> -> -> ->.
    exists members, dv. repeat split; assumption.
  - intros (members & dv & -> & -> & -> & -> & -> & ->). reflexivity.
Qed.

Lemma createUserBodySchema_spec (input : option json) (n e : string) :
  createUserBodySchema input = Some (mkUserBody n e)
  <-> exists members,
        input = Some (JObj members) /\
        get_member "name" members = Some (JStr n) /\
        get_member "email" members = Some (JStr e).
Proof.
  unfold createUserBodySchema, z_string. split.
  - destruct input as [[| | | | |members]|]; try discriminate.
    destruct (get_member "name" members) as [[| | |n'| |]|] eqn:Hn;
      try discriminate.
    destruct (get_member "email" members) as [[| | |e'| |]|] eqn:He;
      try discriminate.
    intros H. injection H as -> ->. exists members. repeat split; assumption.
  - intros (members & -> & -> & ->). reflexivity.
Qed.

Section Sequences.

Variable is_uuid : string -> bool.
Variable coerce_date : json -> option Z.
Variable uuid_stream : nat -> string.
Variable orderBy_date_desc : list Meal -> list Meal.

Local Notation "'run'" :=
  (handler is_uuid coerce_date uuid_stream orderBy_date_desc).

(** X10: Update, then Get by id.  When meal ids are unique and the caller
    owns the row with the id, an Update with a body that passes the schema
    answers 200 with no body, and a Get by id of the same caller then
    returns exactly that row with its id and owner as before and the
    name, description, diet flag and date of the body. *)
Theorem update_then_get_by_id
    (request : Request) (st : State) (m : Meal) (b : MealBody) :
  is_uuid (params_id request) = true ->
  NoDup (map id (db_meals st)) ->
  In m (db_meals st) ->
  id m = params_id request ->
  user_id m = req_user_id request ->
  putMealBodySchema coerce_date (body request) = Some b ->
  let r := meals_put_id is_uuid coerce_date request st in
  fst r = inr (mkReply 200 Empty) /\
  fst (meals_get_id is_uuid request (snd r))
  = inr (mkReply 200
           (MealsBody [mkMeal (id m) (mb_name b) (mb_description b)
                              (isOnDiet b) (mb_date b) (user_id m)])).
Proof.
  intros Huuid Hnd Hin Hid Hown Hbody r. subst r.
  destruct (find_by_id_in m _ Hin) as [m' Hfound]. rewrite Hid in Hfound.
  rewrite meals_put_id_run. cbv zeta. rewrite Huuid, Hfound, Hbody. simpl.
  split; [reflexivity|].
  rewrite meals_get_id_run. cbv zeta. simpl. rewrite Huuid.
  set (f := set_fields (mb_name b) (mb_description b) (isOnDiet b) (mb_date b)).
  set (p := by_user_and_id (req_user_id request) (params_id request)).
  assert (Hstill : find (by_id (params_id request))
                        (map (fun x => if p x then f x else x) (db_meals st))
                   <> None).
  { apply find_of_rewritten; [reflexivity | congruence]. }
  destruct (find (by_id (params_id request))
                 (map (fun x => if p x then f x else x) (db_meals st)));
    [|congruence].
  simpl. rewrite (filter_of_rewritten p f) by reflexivity.
  unfold p. rewrite <- Hid, <- Hown, (own_row_of_id m _ Hnd Hin).
  reflexivity.
Qed.

(** X11: Create, then Get by id.  When the UUID drawn is well-formed and
    not yet in the table, a Get by id of the same caller for that id
    returns exactly the row the Create inserted. *)
Theorem create_then_get_by_id
    (request later : Request) (st : State) (b : MealBody) :
  createMealBodySchema coerce_date (body request) = Some b ->
  is_uuid (uuid_stream (entropy st)) = true ->
  ~ In (uuid_stream (entropy st)) (map id (db_meals st)) ->
  req_user_id later = req_user_id request ->
  params_id later = uuid_stream (entropy st) ->
  let r := meals_post coerce_date uuid_stream request st in
  fst r = inr (mkReply 201 Empty) /\
  fst (meals_get_id is_uuid later (snd r))
  = inr (mkReply 200
           (MealsBody [mkMeal (uuid_stream (entropy st)) (mb_name b)
                              (mb_description b) (isOnDiet b) (mb_date b)
                              (req_user_id request)])).
Proof.
  intros Hbody Huuid Hfresh Hsame Hparam r. subst r.
  rewrite meals_post_run, Hbody. simpl. split; [reflexivity|].
  rewrite meals_get_id_run. cbv zeta. simpl. rewrite Hparam, Huuid, Hsame.
  set (row := mkMeal _ _ _ _ _ _).
  assert (Hnone : filter (by_id (id row)) (db_meals st) = []).
  { clear -Hfresh. induction (db_meals st) as [|x rest IH]; [reflexivity|].
    simpl in *. unfold by_id at 1.
    destruct (String.eqb_spec (id x) (uuid_stream (entropy st))) as [E|_].
    - exfalso. apply Hfresh. left. exact E.
    - apply IH. intros H. apply Hfresh. right. exact H. }
  assert (Hfound : find (by_id (id row)) (db_meals st ++ [row]) <> None).
  { intros Habs. apply (proj1 (find_by_id_none _ _) Habs row);
      [apply in_or_app; right; left; reflexivity | reflexivity]. }
  simpl in Hfound, Hnone.
  destruct (find (by_id (uuid_stream (entropy st))) (db_meals st ++ [row]));
    [|congruence].
  simpl. rewrite by_user_and_id_split, filter_app, Hnone. simpl.
  unfold by_id at 1. simpl. rewrite String.eqb_refl. simpl.
  unfold by_user. simpl. rewrite String.eqb_refl. reflexivity.
Qed.

(** X12: Delete removes the caller's meal and nothing else.  For a
    well-formed id that some row carries, Delete answers 200 with no
    body; afterwards the table holds exactly the rows it held except
    those with both this id and the caller's user id, and a List of the
    caller returns what it returned before without the rows of this id. *)
Theorem delete_removes_own_meal (request : Request) (st : State) :
  is_uuid (params_id request) = true ->
  (exists m, In m (db_meals st) /\ id m = params_id request) ->
  let r := meals_delete_id is_uuid request st in
  fst r = inr (mkReply 200 Empty) /\
  (forall x, In x (db_meals (snd r))
             <-> In x (db_meals st) /\
                 ~ (user_id x = req_user_id request /\
                    id x = params_id request)) /\
  fst (meals_get request (snd r))
  = inr (mkReply 200
           (MealsBody
              (filter (fun x => negb (by_id (params_id request) x))
                      (filter (by_user (req_user_id request)) (db_meals st))))).
Proof.
  intros Huuid Hex r. subst r.
  apply find_by_id_some in Hex. destruct Hex as [m Hfound].
  rewrite meals_delete_id_run. cbv zeta. rewrite Huuid, Hfound. simpl.
  split; [reflexivity|]. split.
  - intros x. rewrite filter_In. unfold by_user_and_id.
    destruct (String.eqb_spec (user_id x) (req_user_id request));
      destruct (String.eqb_spec (id x) (params_id request)); simpl;
      intuition congruence.
  - do 3 f_equal. clear Hfound.
    induction (db_meals st) as [|x rest IH]; simpl; [reflexivity|].
    unfold by_user_and_id, by_user, by_id in *.
    destruct (String.eqb (user_id x) (req_user_id request)) eqn:Eu;
      destruct (String.eqb (id x) (params_id request)) eqn:Ei; simpl;
      rewrite ?Eu, ?Ei; simpl; rewrite ?IH; reflexivity.
Qed.

(** X13: after the owner has deleted a meal, its id is gone.  When meal
    ids are unique and the caller owns the row with the id, after the
    Delete every Get by id, Update or Delete for that id, by any caller
    and with any body, answers 404 with the error body. *)
Theorem deleted_meal_is_not_found
    (request later : Request) (st : State) (m : Meal) (r : Route) :
  is_uuid (params_id request) = true ->
  NoDup (map id (db_meals st)) ->
  In m (db_meals st) ->
  id m = params_id request ->
  user_id m = req_user_id request ->
  params_id later = params_id request ->
  r = GET_meals_id \/ r = PUT_meals_id \/ r = DELETE_meals_id ->
  fst (meals_delete_id is_uuid request st) = inr (mkReply 200 Empty) /\
  fst (run r later (snd (meals_delete_id is_uuid request st)))
  = inr (mkReply 404 (ErrorBody "Meal not found")).
Proof.
  intros Huuid Hnd Hin Hid Hown Hparam Hr.
  destruct (find_by_id_in m _ Hin) as [m' Hfound]. rewrite Hid in Hfound.
  pose proof (gone_after_delete m _ Hnd Hin) as Hgone.
  rewrite Hid, Hown in Hgone.
  rewrite meals_delete_id_run. cbv zeta. rewrite Huuid, Hfound. simpl.
  split; [reflexivity|].
  destruct Hr as [-> | [-> | ->]]; simpl;
    [rewrite meals_get_id_run | rewrite meals_put_id_run
     | rewrite meals_delete_id_run];
    cbv zeta; simpl; rewrite Hparam, Huuid, Hgone; reflexivity.
Qed.

(** X14: Delete of another user's meal does nothing and says so to no
    one.  For a well-formed id that some row carries and no row of the
    caller carries, Delete answers 200 with no body and both tables are
    as they were. *)
Theorem delete_of_foreign_meal_is_silent (request : Request) (st : State) :
  is_uuid (params_id request) = true ->
  (exists m, In m (db_meals st) /\ id m = params_id request) ->
  (forall m, In m (db_meals st) -> id m = params_id request ->
             user_id m <> req_user_id request) ->
  let r := meals_delete_id is_uuid request st in
  fst r = inr (mkReply 200 Empty) /\
  db_meals (snd r) = db_meals st /\
  db_users (snd r) = db_users st.
Proof.
  intros Huuid Hex Hforeign r. subst r.
  apply find_by_id_some in Hex. destruct Hex as [m Hfound].
  pose proof (by_user_and_id_foreign _ _ _ Hforeign) as Hnone.
  rewrite meals_delete_id_run. cbv zeta. rewrite Huuid, Hfound. simpl.
  repeat split.
  clear Hfound Hforeign. revert Hnone.
  induction (db_meals st) as [|x rest IH]; simpl; intros Hnone;
    [reflexivity|].
  rewrite (Hnone x (or_introl eq_refl)). simpl. f_equal.
  apply IH. intros y Hy. apply Hnone. right. exact Hy.
Qed.

(** X15: Delete of an id that no row carries answers 404 with the error
    body; the lookup is its only query and both tables are as they
    were. *)
Theorem delete_of_absent_id_is_not_found (request : Request) (st : State) :
  is_uuid (params_id request) = true ->
  (forall m, In m (db_meals st) -> id m <> params_id request) ->
  let r := meals_delete_id is_uuid request st in
  fst r = inr (mkReply 404 (ErrorBody "Meal not found")) /\
  queries (snd r) = queries st ++ [(t_meals, v_first)] /\
  db_meals (snd r) = db_meals st /\
  db_users (snd r) = db_users st.
Proof.
  intros Huuid Habsent r. subst r.
  apply find_by_id_none in Habsent.
  rewrite meals_delete_id_run. cbv zeta. rewrite Huuid, Habsent.
  repeat split.
Qed.

(** X16: Update and Delete can be repeated.  Sending the same Update or
    the same Delete a second time leaves the meals table as the first
    one left it, whatever the request. *)
Theorem update_and_delete_are_idempotent
    (r : Route) (request : Request) (st : State) :
  r = PUT_meals_id \/ r = DELETE_meals_id ->
  db_meals (snd (run r request (snd (run r request st))))
  = db_meals (snd (run r request st)).
Proof.
  intros [-> | ->]; simpl.
  - rewrite (meals_put_id_run _ _ request st). cbv zeta.
    destruct (is_uuid (params_id request)) eqn:Huuid;
      [|rewrite meals_put_id_run; cbv zeta; rewrite Huuid; reflexivity].
    destruct (find (by_id (params_id request)) (db_meals st)) eqn:Hfound;
      [|rewrite meals_put_id_run; cbv zeta; simpl;
        rewrite Huuid, Hfound; reflexivity].
    destruct (putMealBodySchema coerce_date (body request)) as [b|] eqn:Hbody;
      [|rewrite meals_put_id_run; cbv zeta; simpl;
        rewrite Huuid, Hfound, Hbody; reflexivity].
    rewrite meals_put_id_run. cbv zeta. simpl. rewrite Huuid, Hbody.
    match goal with
    | |- context [find ?q ?l] => destruct (find q l)
    end; simpl; [|reflexivity].
    apply rewrite_twice; reflexivity.
  - rewrite (meals_delete_id_run _ request st). cbv zeta.
    destruct (is_uuid (params_id request)) eqn:Huuid;
      [|rewrite meals_delete_id_run; cbv zeta; rewrite Huuid; reflexivity].
    destruct (find (by_id (params_id request)) (db_meals st)) eqn:Hfound;
      [|rewrite meals_delete_id_run; cbv zeta; simpl;
        rewrite Huuid, Hfound; reflexivity].
    rewrite meals_delete_id_run. cbv zeta. simpl. rewrite Huuid.
    match goal with
    | |- context [find ?q ?l] => destruct (find q l)
    end; simpl; [|reflexivity].
    apply filter_twice.
Qed.

End Sequences.

(** ** Validation of the bodies, and registration *)

Section BodyFacts.

Variable coerce_date : json -> option Z.
Variable uuid_stream : nat -> string.

(** X17: Create accepts exactly the bodies that are an object with a
    string [name], a string [description], a boolean [isOnDiet] and a
    [date] that converts to a date.  Every other body makes it throw
    the validation error with the whole state untouched: no UUID is
    drawn, no query issued and no row written. *)
Theorem create_accepts_exactly_the_schema (request : Request) (st : State) :
  let r := meals_post coerce_date uuid_stream request st in
  (fst r = inr (mkReply 201 Empty)
   <-> exists members n d b dv t,
         body request = Some (JObj members) /\
         get_member "name" members = Some (JStr n) /\
         get_member "description" members = Some (JStr d) /\
         get_member "isOnDiet" members = Some (JBool b) /\
         get_member "date" members = Some dv /\
         coerce_date dv = Some t) /\
  (fst r <> inr (mkReply 201 Empty) -> r = (inl ZodError, st)).
Proof.
  intros r. subst r. rewrite meals_post_run.
  destruct (createMealBodySchema coerce_date (body request)) as [[n d b t]|]
    eqn:Hbody; simpl.
  - split; [|congruence]. split; [intros _ | reflexivity].
    apply createMealBodySchema_spec in Hbody.
    destruct Hbody as (members & dv & H). exists members, n, d, b, dv, t.
    exact H.
  - split; [|reflexivity]. split; [discriminate|].
    intros (members & n & d & b & dv & t & H).
    assert (Hsome : createMealBodySchema coerce_date (body request)
                    = Some (mkMealBody n d b t)).
    { apply createMealBodySchema_spec. exists members, dv. exact H. }
    congruence.
Qed.

(** X18: Register throws the validation error exactly when the body is
    not an object with a string [name] and a string [email]; it has
    then issued no query and both tables are as they were. *)
Theorem register_rejects_exactly_off_schema (request : Request) (st : State) :
  let r := users_post uuid_stream request st in
  (fst r = inl ZodError
   <-> ~ exists members n e,
           body request = Some (JObj members) /\
           get_member "name" members = Some (JStr n) /\
           get_member "email" members = Some (JStr e)) /\
  (fst r = inl ZodError ->
   queries (snd r) = queries st /\
   db_users (snd r) = db_users st /\
   db_meals (snd r) = db_meals st).
Proof.
  intros r. subst r. rewrite users_post_run. cbv zeta.
  destruct (createUserBodySchema (body request)) as [[n e]|] eqn:Hbody.
  - apply createUserBodySchema_spec in Hbody.
    destruct Hbody as (members & H). simpl.
    destruct (find (by_email e) (db_users st)); simpl;
      (split; [split; [discriminate | intros Hno; exfalso; apply Hno;
                                      exists members, n, e; exact H]
              | discriminate]).
  - simpl. split; [|intros _; repeat split].
    split; [intros _|reflexivity].
    intros (members & n & e & H).
    assert (Hsome : createUserBodySchema (body request)
                    = Some (mkUserBody n e)).
    { apply createUserBodySchema_spec. exists members. exact H. }
    congruence.
Qed.

(** X19: a Register with a well-shaped body and an email that no row has
    answers 201 with no body and appends one row with the body's name
    and email.  The session id of the row is the token the request
    brought, and then no cookie is set; or, when it brought none, the
    first UUID drawn, which is also the value of the cookie set.  The
    id of the row is the next UUID drawn. *)
Theorem register_inserts_user_bound_to_session
    (request : Request) (st : State) (b : UserBody) :
  createUserBodySchema (body request) = Some b ->
  (forall u, In u (db_users st) -> email u <> ub_email b) ->
  let r := users_post uuid_stream request st in
  let sid := session_of uuid_stream request st in
  let fresh := not_ (cookies_sessionId request) in
  fst r = inr (mkReply 201 Empty) /\
  db_users (snd r)
  = db_users st
    ++ [mkUser (uuid_stream (if fresh then S (entropy st) else entropy st))
               (ub_name b) (ub_email b) sid] /\
  (fresh = true ->
   sid = uuid_stream (entropy st) /\
   cookies (snd r) = cookies st ++ [mkCookie "sessionId" sid "/" 604800]) /\
  (fresh = false ->
   cookies_sessionId request = Some sid /\ cookies (snd r) = cookies st).
Proof.
  intros Hbody Hnew r sid fresh. subst r sid fresh.
  assert (Hnone : find (by_email (ub_email b)) (db_users st) = None).
  { destruct (find (by_email (ub_email b)) (db_users st)) as [u|] eqn:E;
      [|reflexivity].
    apply find_some in E. destruct E as [Hin He].
    unfold by_email in He. apply String.eqb_eq in He.
    exfalso. exact (Hnew u Hin He). }
  rewrite users_post_run. cbv zeta. rewrite Hbody, Hnone. simpl.
  split; [reflexivity|]. split; [reflexivity|].
  unfold session_of, not_.
  destruct (cookies_sessionId request) as [s|]; [destruct (String.eqb s "")|];
    split; intros Hf; try discriminate; split; reflexivity.
Qed.

(** X20: Register, then the list of the current user.  After a Register
    that answered 201, a GET of the users route carrying the session id
    of that registration returns the rows that already had this session
    id followed by the new row. *)
Theorem register_then_get_users
    (request later : Request) (st : State) (b : UserBody) :
  createUserBodySchema (body request) = Some b ->
  (forall u, In u (db_users st) -> email u <> ub_email b) ->
  let r := users_post uuid_stream request st in
  let sid := session_of uuid_stream request st in
  cookies_sessionId later = Some sid ->
  exists i,
    fst (users_get later (snd r))
    = inr (mkReply 200
             (UsersBody
                (filter (by_session sid) (db_users st)
                 ++ [mkUser i (ub_name b) (ub_email b) sid]))).
Proof.
  intros Hbody Hnew r sid Hlater. subst r sid.
  assert (Hnone : find (by_email (ub_email b)) (db_users st) = None).
  { destruct (find (by_email (ub_email b)) (db_users st)) as [u|] eqn:E;
      [|reflexivity].
    apply find_some in E. destruct E as [Hin He].
    unfold by_email in He. apply String.eqb_eq in He.
    exfalso. exact (Hnew u Hin He). }
  rewrite users_post_run. cbv zeta. rewrite Hbody, Hnone. simpl.
  rewrite users_get_run, Hlater. simpl.
  eexists. rewrite filter_app. simpl.
  unfold by_session at 2. simpl. rewrite String.eqb_refl. reflexivity.
Qed.

End BodyFacts.

Section CreateThenMetrics.

Variable coerce_date : json -> option Z.
Variable uuid_stream : nat -> string.
Variable orderBy_date_desc : list Meal -> list Meal.

Hypothesis orderBy_perm :
  forall l, Permutation (orderBy_date_desc l) l.

(** X21: Create, then the metrics.  After a Create that passed the
    schema, the metrics of the same caller count one meal more, and one
    more on-diet meal or one more off-diet meal according to the
    [isOnDiet] of the body. *)
Theorem create_then_metrics (request : Request) (st : State) (b : MealBody) :
  createMealBodySchema coerce_date (body request) = Some b ->
  exists before after : Metrics,
    fst (meals_metrics orderBy_date_desc request st)
    = inr (mkReply 200 (MetricsBody before)) /\
    fst (meals_metrics orderBy_date_desc request
           (snd (meals_post coerce_date uuid_stream request st)))
    = inr (mkReply 200 (MetricsBody after)) /\
    totalMeals after = S (totalMeals before) /\
    totalMealsOnDiet after
    = totalMealsOnDiet before + (if isOnDiet b then 1 else 0) /\
    totalMealsOffDiet after
    = totalMealsOffDiet before + (if isOnDiet b then 0 else 1).
Proof.
  intros Hbody. rewrite !meals_metrics_run. cbv zeta.
  rewrite meals_post_run, Hbody. simpl.
  do 2 eexists. split; [reflexivity|]. split; [reflexivity|]. simpl.
  rewrite !(Permutation_length (orderBy_perm _)).
  rewrite !filter_app, !length_app. simpl.
  unfold by_user at 2. unfold by_user_and_diet. simpl.
  rewrite String.eqb_refl. simpl.
  destruct (isOnDiet b); simpl; lia.
Qed.

End CreateThenMetrics.

(** ** The further theorems at sample requests *)

Lemma store0_ids_unique : NoDup (map id (db_meals store0)).
Proof.
  simpl. repeat constructor; simpl; intuition discriminate.
Qed.

Lemma metrics_on_plus_off_is_total_witness :
  exists m : Metrics,
    fst (meals_metrics sort_date_desc (mkRequest None ana "" None)
           (mkState [rita] (burger :: week ana) [] [] 0))
    = inr (mkReply 200 (MetricsBody m)) /\
    totalMealsOnDiet m + totalMealsOffDiet m = totalMeals m.
Proof.
  exact (metrics_on_plus_off_is_total sort_date_desc sort_date_desc_perm
           (mkRequest None ana "" None)
           (mkState [rita] (burger :: week ana) [] [] 0)).
Defined.

Lemma metrics_best_sequence_extremes_witness :
  exists m : Metrics,
    fst (meals_metrics sort_date_desc (mkRequest None bia "" None) store0)
    = inr (mkReply 200 (MetricsBody m)) /\
    (bestOnDietSequence m = 0 <-> totalMealsOnDiet m = 0) /\
    (bestOnDietSequence m = totalMeals m <-> totalMealsOffDiet m = 0).
Proof.
  exact (metrics_best_sequence_extremes sort_date_desc sort_date_desc_perm
           (mkRequest None bia "" None) store0).
Defined.

Lemma get_routes_only_read_witness :
  let st' := snd (handler uuid_shape date_of_epoch_number sample_uuids
                          sort_date_desc GET_meals_id
                          (mkRequest None ana (id burger) None) store0) in
  db_users st' = db_users store0 /\
  db_meals st' = db_meals store0 /\
  entropy st' = entropy store0 /\
  exists issued,
    queries st' = queries store0 ++ issued /\ forallb reads issued = true.
Proof.
  apply (get_routes_only_read uuid_shape date_of_epoch_number sample_uuids
           sort_date_desc GET_meals_id).
  right. right. right. reflexivity.
Defined.

Lemma meals_of_others_untouched_witness :
  filter (by_user bia)
         (db_meals (snd (handler uuid_shape date_of_epoch_number sample_uuids
                                 sort_date_desc DELETE_meals_id
                                 (mkRequest None ana (id burger) None)
                                 store0)))
  = [burger].
Proof.
  apply (meals_of_others_untouched uuid_shape date_of_epoch_number
           sample_uuids sort_date_desc DELETE_meals_id
           (mkRequest None ana (id burger) None) store0 bia).
  discriminate.
Defined.

Lemma meal_ids_stay_unique_witness :
  NoDup (map id (db_meals
                   (snd (handler uuid_shape date_of_epoch_number sample_uuids
                                 sort_date_desc POST_meals post_soup store0)))).
Proof.
  apply (meal_ids_stay_unique uuid_shape date_of_epoch_number sample_uuids
           sort_date_desc POST_meals post_soup store0).
  - exact store0_ids_unique.
  - intros _. simpl. intuition discriminate.
Defined.

Lemma ids_and_owners_are_fixed_witness :
  map (fun m => (id m, user_id m))
      (db_meals (snd (handler uuid_shape date_of_epoch_number sample_uuids
                              sort_date_desc PUT_meals_id put_salad store0)))
  = [(id salad, ana); (id burger, bia)].
Proof.
  apply (ids_and_owners_are_fixed uuid_shape date_of_epoch_number sample_uuids
           sort_date_desc PUT_meals_id put_salad store0); discriminate.
Defined.

Lemma emails_stay_unique_witness :
  NoDup (map email
             (db_users
                (snd (handler uuid_shape date_of_epoch_number sample_uuids
                              sort_date_desc POST_users register_ana store0)))).
Proof.
  apply (emails_stay_unique uuid_shape date_of_epoch_number sample_uuids
           sort_date_desc POST_users register_ana store0).
  simpl. repeat constructor. simpl. tauto.
Defined.

Lemma update_then_get_by_id_witness :
  let r := meals_put_id uuid_shape date_of_epoch_number put_salad store0 in
  fst r = inr (mkReply 200 Empty) /\
  fst (meals_get_id uuid_shape put_salad (snd r))
  = inr (mkReply 200
           (MealsBody [mkMeal (id salad) "caesar" "no croutons" false
                              1700000100000 ana])).
Proof.
  apply (update_then_get_by_id uuid_shape date_of_epoch_number put_salad
           store0 salad
           (mkMealBody "caesar" "no croutons" false 1700000100000)).
  - reflexivity.
  - exact store0_ids_unique.
  - simpl. auto.
  - reflexivity.
  - reflexivity.
  - reflexivity.
Defined.

Lemma create_then_get_by_id_witness :
  let r := meals_post date_of_epoch_number sample_uuids post_soup store0 in
  fst r = inr (mkReply 201 Empty) /\
  fst (meals_get_id uuid_shape (mkRequest None ana (sample_uuids 0) None)
                    (snd r))
  = inr (mkReply 200
           (MealsBody [mkMeal (sample_uuids 0) "soup" "hot" true
                              1700000720000 ana])).
Proof.
  apply (create_then_get_by_id uuid_shape date_of_epoch_number sample_uuids
           post_soup (mkRequest None ana (sample_uuids 0) None) store0
           (mkMealBody "soup" "hot" true 1700000720000)).
  - reflexivity.
  - reflexivity.
  - simpl. intuition discriminate.
  - reflexivity.
  - reflexivity.
Defined.

Lemma delete_removes_own_meal_witness :
  let r := meals_delete_id uuid_shape delete_salad store0 in
  fst r = inr (mkReply 200 Empty) /\
  (forall x, In x (db_meals (snd r))
             <-> In x (db_meals store0) /\
                 ~ (user_id x = ana /\ id x = id salad)) /\
  fst (meals_get delete_salad (snd r)) = inr (mkReply 200 (MealsBody [])).
Proof.
  apply (delete_removes_own_meal uuid_shape delete_salad store0).
  - reflexivity.
  - exists salad. split; [simpl; auto | reflexivity].
Defined.

Lemma deleted_meal_is_not_found_witness :
  fst (meals_delete_id uuid_shape delete_salad store0)
  = inr (mkReply 200 Empty) /\
  fst (handler uuid_shape date_of_epoch_number sample_uuids sort_date_desc
               GET_meals_id (mkRequest None bia (id salad) None)
               (snd (meals_delete_id uuid_shape delete_salad store0)))
  = inr (mkReply 404 (ErrorBody "Meal not found")).
Proof.
  apply (deleted_meal_is_not_found uuid_shape date_of_epoch_number
           sample_uuids sort_date_desc delete_salad
           (mkRequest None bia (id salad) None) store0 salad GET_meals_id).
  - reflexivity.
  - exact store0_ids_unique.
  - simpl. auto.
  - reflexivity.
  - reflexivity.
  - reflexivity.
  - left. reflexivity.
Defined.

Lemma delete_of_foreign_meal_is_silent_witness :
  let r := meals_delete_id uuid_shape (mkRequest None ana (id burger) None)
                           store0 in
  fst r = inr (mkReply 200 Empty) /\
  db_meals (snd r) = db_meals store0 /\
  db_users (snd r) = db_users store0.
Proof.
  apply (delete_of_foreign_meal_is_silent uuid_shape
           (mkRequest None ana (id burger) None) store0).
  - reflexivity.
  - exists burger. split; [simpl; auto | reflexivity].
  - simpl. intros m [<- | [<- | []]]; simpl; intros; discriminate.
Defined.

Lemma delete_of_absent_id_is_not_found_witness :
  let r := meals_delete_id uuid_shape
             (mkRequest None ana "ffffffff-ffff-4fff-8fff-ffffffffffff" None)
             store0 in
  fst r = inr (mkReply 404 (ErrorBody "Meal not found")) /\
  queries (snd r) = queries store0 ++ [(t_meals, v_first)] /\
  db_meals (snd r) = db_meals store0 /\
  db_users (snd r) = db_users store0.
Proof.
  apply (delete_of_absent_id_is_not_found uuid_shape
           (mkRequest None ana "ffffffff-ffff-4fff-8fff-ffffffffffff" None)
           store0).
  - reflexivity.
  - simpl. intros m [<- | [<- | []]]; discriminate.
Defined.

Lemma update_and_delete_are_idempotent_witness :
  let once := snd (handler uuid_shape date_of_epoch_number sample_uuids
                           sort_date_desc PUT_meals_id put_salad store0) in
  db_meals (snd (handler uuid_shape date_of_epoch_number sample_uuids
                         sort_date_desc PUT_meals_id put_salad once))
  = db_meals once.
Proof.
  apply (update_and_delete_are_idempotent uuid_shape date_of_epoch_number
           sample_uuids sort_date_desc PUT_meals_id put_salad store0).
  left. reflexivity.
Defined.

Lemma register_inserts_user_bound_to_session_witness :
  let r := users_post sample_uuids register_ana store0 in
  fst r = inr (mkReply 201 Empty) /\
  db_users (snd r)
  = [rita; mkUser (sample_uuids 1) "Ana" "ana@example.com" (sample_uuids 0)] /\
  cookies (snd r) = [mkCookie "sessionId" (sample_uuids 0) "/" 604800].
Proof.
  destruct (register_inserts_user_bound_to_session sample_uuids register_ana
              store0 (mkUserBody "Ana" "ana@example.com") eq_refl)
    as (Hreply & Hrows & Hfresh & _).
  - simpl. intros u [<- | []]. discriminate.
  - split; [exact Hreply|]. split; [exact Hrows|].
    exact (proj2 (Hfresh eq_refl)).
Defined.

Lemma register_then_get_users_witness :
  exists i,
    fst (users_get (mkRequest (Some (sample_uuids 0)) "" "" None)
                   (snd (users_post sample_uuids register_ana store0)))
    = inr (mkReply 200
             (UsersBody
                [mkUser i "Ana" "ana@example.com" (sample_uuids 0)])).
Proof.
  apply (register_then_get_users sample_uuids register_ana
           (mkRequest (Some (sample_uuids 0)) "" "" None) store0
           (mkUserBody "Ana" "ana@example.com")).
  - reflexivity.
  - simpl. intros u [<- | []]. discriminate.
  - reflexivity.
Defined.

Lemma create_then_metrics_witness :
  exists before after : Metrics,
    fst (meals_metrics sort_date_desc post_soup store0)
    = inr (mkReply 200 (MetricsBody before)) /\
    fst (meals_metrics sort_date_desc post_soup
           (snd (meals_post date_of_epoch_number sample_uuids post_soup store0)))
    = inr (mkReply 200 (MetricsBody after)) /\
    totalMeals after = S (totalMeals before) /\
    totalMealsOnDiet after = totalMealsOnDiet before + 1 /\
    totalMealsOffDiet after = totalMealsOffDiet before + 0.
Proof.
  apply (create_then_metrics date_of_epoch_number sample_uuids sort_date_desc
           sort_date_desc_perm post_soup store0
           (mkMealBody "soup" "hot" true 1700000720000)).
  reflexivity.
Defined.
